(** * Shipping-cost extractor: normalisation, fetch classification, batch

    A shallow embedding of [src/main.py]: the two input normalisers
    ([normalize_ad_id], [normalize_zip_code]), the per-listing fetcher
    ([fetch_shipping_cost]) and the batch coordinator ([process_ad_ids]),
    followed by the properties the specification states about them. *)

From Stdlib Require Import ZArith NArith String Ascii DecimalString.
From stdpp Require Import base option list sorting gmap.

Local Open Scope N_scope.

(** ** Python strings

    A Python [str] is a sequence of Unicode code points. *)

Abbreviation char := N (only parsing).
Abbreviation pystr := (list N) (only parsing).

(** ASCII literals of the source, as code-point sequences. *)
Definition u (s : string) : pystr :=
  N_of_ascii <$> list_ascii_of_string s.

Definition LF : char := 10.

(** [str.isspace] for one character: the code points CPython's [str.strip()]
    removes when called without arguments. *)
Definition is_space (c : char) : bool :=
  ((9 <=? c) && (c <=? 13)) || ((28 <=? c) && (c <=? 32))
  || (c =? 133) || (c =? 160) || (c =? 5760)
  || ((8192 <=? c) && (c <=? 8202))
  || (c =? 8232) || (c =? 8233) || (c =? 8239) || (c =? 8287)
  || (c =? 12288).

Fixpoint lstrip (s : pystr) : pystr :=
  match s with
  | c :: s' => if is_space c then lstrip s' else s
  | [] => []
  end.

(** [s.strip()] *)
Definition strip (s : pystr) : pystr :=
  reverse (lstrip (reverse (lstrip s))).

(** [s.startswith(p)] *)
Fixpoint startswith (p s : pystr) : bool :=
  match p, s with
  | [], _ => true
  | a :: p', b :: s' => (a =? b) && startswith p' s'
  | _ :: _, [] => false
  end.

(** The ASCII range [0-9] of a regex character class. *)
Definition ascii_digit (c : char) : bool := (48 <=? c) && (c <=? 57).

(** The class [MLB0-9] of [re.sub(r"[^MLB0-9]", "", _)]. *)
Definition in_MLB09 (c : char) : bool :=
  (c =? 77) || (c =? 76) || (c =? 66) || ascii_digit c.

(** [re.sub(r"[^cls]", "", s)]: every character outside the class goes. *)
Definition re_sub_not (cls : char -> bool) (s : pystr) : pystr :=
  filter (fun c => Is_true (cls c)) s.

(** The longest prefix of [s] whose characters satisfy [p], and what
    follows it: how a greedy [p+] consumes [s]. *)
Fixpoint span (p : char -> bool) (s : pystr) : pystr * pystr :=
  match s with
  | c :: s' => if p c then let '(a, b) := span p s' in (c :: a, b) else ([], s)
  | [] => ([], [])
  end.

(** ** What the interpreter supplies

    Tables and builtins of the Python runtime the program relies on and
    that are not part of the repository: the Unicode tables behind the
    regex escape [\d] and behind [str.isdigit], the [float] type with its
    conversions, [str()] of an exception and the [.2f] format. *)

Inductive pyclass :=
  | Exception | ValueError | JSONDecodeError | KeyError | IndexError
  | TypeError | OverflowError | TimeoutError
  | ClientError | ClientConnectionError | ServerTimeoutError
  | ClientResponseError | ContentTypeError | ClientPayloadError | InvalidURL
  | OtherException.

Global Instance pyclass_eq_dec : EqDecision pyclass.
Proof. solve_decision. Defined.

(** The class itself followed by its ancestors among the classes above. *)
Definition mro (c : pyclass) : list pyclass :=
  match c with
  | Exception => [Exception]
  | ValueError => [ValueError; Exception]
  | JSONDecodeError => [JSONDecodeError; ValueError; Exception]
  | KeyError => [KeyError; Exception]
  | IndexError => [IndexError; Exception]
  | TypeError => [TypeError; Exception]
  | OverflowError => [OverflowError; Exception]
  | TimeoutError => [TimeoutError; Exception]
  | ClientError => [ClientError; Exception]
  | ClientConnectionError => [ClientConnectionError; ClientError; Exception]
  | ServerTimeoutError =>
      [ServerTimeoutError; ClientConnectionError; ClientError; TimeoutError;
       Exception]
  | ClientResponseError => [ClientResponseError; ClientError; Exception]
  | ContentTypeError =>
      [ContentTypeError; ClientResponseError; ClientError; Exception]
  | ClientPayloadError => [ClientPayloadError; ClientError; Exception]
  | InvalidURL => [InvalidURL; ClientError; ValueError; Exception]
  | OtherException => [OtherException; Exception]
  end.

(** A raised exception, an instance of [Exception]: its class and, for
    HTTP response errors, the [status] attribute. Every class above
    derives from [Exception], the class the last [except] clause of
    [fetch_shipping_cost] names. *)
Record exn := Exn { exn_class : pyclass; exn_status : Z }.

Definition isinstance (e : exn) (c : pyclass) : bool :=
  bool_decide (c ∈ mro (exn_class e)).

Class PyRuntime := {
  pyfloat : Type;
  (** [float(n)] for an [int]; [None] is [OverflowError]. *)
  float_of_int : Z -> option pyfloat;
  (** [float(s)] for a [str]; [None] is [ValueError]. *)
  float_of_str : pystr -> option pyfloat;
  (** [f"{x:.2f}"] *)
  format_2f : pyfloat -> pystr;
  (** [str(error)] *)
  exn_str : exn -> pystr;
  (** the characters [\d] matches in a [str] pattern *)
  re_digit : char -> bool;
  (** the characters [str.isdigit] accepts *)
  uni_isdigit : char -> bool;
  (** within ASCII both tables hold the digits 0-9 and nothing else *)
  re_digit_ascii : forall c, c < 128 -> re_digit c = ascii_digit c;
  uni_isdigit_ascii : forall c, c < 128 -> uni_isdigit c = ascii_digit c;
}.

Section Normalizer.
Context `{RT : PyRuntime}.

(** [re.match(r"^MLB\d+$", s)]: the prefix, a greedy run of [\d], and
    then the end of the string or a single final newline. *)
Definition re_match_MLB_digits (s : pystr) : bool :=
  match s with
  | 77 :: 76 :: 66 :: rest =>
      match span re_digit rest with
      | (_ :: _, []) => true
      | (_ :: _, [c]) => c =? LF
      | _ => false
      end
  | _ => false
  end.

(** [s.isdigit()] *)
Definition isdigit (s : pystr) : bool :=
  match s with
  | [] => false
  | _ => forallb uni_isdigit s
  end.

Definition normalize_ad_id (ad_id : pystr) : option pystr :=
  let cleaned_id := re_sub_not in_MLB09 (strip ad_id) in
  let cleaned_id :=
    if negb (startswith (u "MLB") cleaned_id)
    then u "MLB" ++ cleaned_id else cleaned_id in
  if re_match_MLB_digits cleaned_id then Some cleaned_id else None.

Definition normalize_zip_code (zip_code : pystr) : option pystr :=
  let cleaned_zip := re_sub_not ascii_digit (strip zip_code) in
  if (length cleaned_zip =? 8)%nat && isdigit cleaned_zip
  then Some cleaned_zip else None.

End Normalizer.

(** ** Values and builtins

    [res A] is the outcome of evaluating a Python expression: a value, or
    a raised exception. *)

Inductive res (A : Type) :=
  | Ok (a : A)
  | Raise (e : exn).
Arguments Ok {A} a.
Arguments Raise {A} e.

Definition res_bind {A B} (r : res A) (k : A -> res B) : res B :=
  match r with
  | Ok a => k a
  | Raise e => Raise e
  end.

Notation "x <- r ;; k" := (res_bind r (fun x => k))
  (at level 100, r at next level, right associativity, only parsing).

Definition raise {A} (c : pyclass) : res A := Raise (Exn c 0).

Section Fetcher.
Context `{RT : PyRuntime}.

(** What [response.json()] yields: the Python object [json.loads] builds. *)
#[warnings="-register-all"] Inductive json :=
  | JNull
  | JBool (b : bool)
  | JInt (n : Z)
  | JFloat (x : pyfloat)
  | JStr (s : pystr)
  | JArr (items : list json)
  | JObj (fields : gmap pystr json).

(** [needle in hay] for two strings. *)
Fixpoint substring (needle hay : pystr) : bool :=
  startswith needle hay ||
  match hay with
  | [] => false
  | _ :: hay' => substring needle hay'
  end.

(** [key in data]: dict membership, list membership by [==], substring
    test on a [str]; the other JSON values are not containers. *)
Definition py_contains (key : pystr) (data : json) : res bool :=
  match data with
  | JObj fields => Ok (bool_decide (is_Some (fields !! key)))
  | JArr items =>
      Ok (existsb (fun x => match x with
                            | JStr s => bool_decide (s = key)
                            | _ => false
                            end) items)
  | JStr s => Ok (substring key s)
  | _ => raise TypeError
  end.

(** [v[key]] with a [str] key. *)
Definition py_getitem (v : json) (key : pystr) : res json :=
  match v with
  | JObj fields =>
      match fields !! key with
      | Some x => Ok x
      | None => raise KeyError
      end
  | _ => raise TypeError
  end.

(** [v[i]] with a non-negative [int] index. *)
Definition py_index (v : json) (i : nat) : res json :=
  match v with
  | JArr items =>
      match items !! i with
      | Some x => Ok x
      | None => raise IndexError
      end
  | JStr s =>
      match s !! i with
      | Some c => Ok (JStr [c])
      | None => raise IndexError
      end
  | JObj _ => raise KeyError
  | _ => raise TypeError
  end.

(** [len(v)] *)
Definition py_len (v : json) : res nat :=
  match v with
  | JArr items => Ok (length items)
  | JStr s => Ok (length s)
  | JObj fields => Ok (size fields)
  | _ => raise TypeError
  end.

(** [float(v)] *)
Definition py_float (v : json) : res pyfloat :=
  match v with
  | JFloat x => Ok x
  | JInt n =>
      match float_of_int n with
      | Some x => Ok x
      | None => raise OverflowError
      end
  | JBool b =>
      match float_of_int (if b then 1 else 0)%Z with
      | Some x => Ok x
      | None => raise OverflowError
      end
  | JStr s =>
      match float_of_str s with
      | Some x => Ok x
      | None => raise ValueError
      end
  | _ => raise TypeError
  end.

(** [str(n)] for an [int]. *)
Definition str_of_int (n : Z) : pystr :=
  u (NilZero.string_of_int (Z.to_int n)).

(** The triple [fetch_shipping_cost] returns: the id, the cost or [None],
    the error text or [None]. *)
Definition outcome : Type := pystr * option pyfloat * option pystr.

Definition request_url (ad_id zip_code : pystr) : pystr :=
  u "https://api.mercadolibre.com/items/" ++ ad_id
    ++ u "/shipping_options?zip_code=" ++ zip_code.

(** Lines 29-31, run on the parsed body. *)
Definition read_cost (ad_id : pystr) (data : json) : res outcome :=
  has <- py_contains (u "options") data ;;
  enough <- (if has
             then opts <- py_getitem data (u "options") ;;
                  n <- py_len opts ;;
                  Ok (2 <? n)%nat
             else Ok false) ;;
  if (enough : bool)
  then opts <- py_getitem data (u "options") ;;
       third <- py_index opts 2 ;;
       list_cost <- py_getitem third (u "list_cost") ;;
       cost <- py_float list_cost ;;
       Ok ((ad_id, Some cost, None) : outcome)
  else Ok ((ad_id, None, Some (u "No shipping options available")) : outcome).

(** The [except] clauses of lines 32-48, tried in order. *)
Definition handle (ad_id : pystr) (error : exn) : outcome :=
  if isinstance error ClientConnectionError then
    (ad_id, None,
     Some (u "Could not connect to the server. Please check your internet connection and try again."))
  else if isinstance error ClientResponseError then
    if (exn_status error =? 500)%Z then
      (ad_id, None,
       Some (u "Server error (500). The Mercado Livre API is experiencing issues. Please try again later."))
    else if (exn_status error =? 404)%Z then
      (ad_id, None,
       Some (u "Item not found (404). Verify the ad ID and try again."))
    else if (exn_status error =? 429)%Z then
      (ad_id, None,
       Some (u "Too many requests (429). Please wait a few minutes and try again."))
    else
      (ad_id, None,
       Some (u "Unexpected HTTP error (" ++ str_of_int (exn_status error)
               ++ u "). Contact the developer if this persists."))
  else if isinstance error ClientError then
    (ad_id, None,
     Some (u "Client error: " ++ exn_str error
             ++ u ". Check your connection or contact the developer."))
  else if isinstance error ValueError then
    (ad_id, None,
     Some (u "Invalid response: " ++ exn_str error
             ++ u ". The API returned unexpected data. Try again or contact the developer."))
  else
    (ad_id, None,
     Some (u "Unexpected error: " ++ exn_str error
             ++ u ". Please contact the developer with this error message."))
.

(** [fetch_shipping_cost]. The argument [session] stands for lines 26-28:
    given the URL it either raises (from [session.get], from
    [raise_for_status], which raises a [ClientResponseError] carrying the
    response status, or from [response.json()]) or yields the parsed
    body of a response that passed [raise_for_status]. *)
Definition fetch_shipping_cost
    (session : pystr -> res json) (ad_id zip_code : pystr) : outcome :=
  let url := request_url ad_id zip_code in
  match data <- session url ;; read_cost ad_id data with
  | Ok result => result
  | Raise error => handle ad_id error
  end.

End Fetcher.

(** ** The request, step by step

    Lines 26-28 with the response made explicit. [session.get] either
    raises or hands over a response, of which the fetcher uses the status
    and what [response.json()] yields. [raise_for_status] is aiohttp's:
    it raises a [ClientResponseError] carrying the status when the
    status is 400 or more, and returns otherwise. *)

Section Request.
Context `{RT : PyRuntime}.




End Request.

(** ** The batch coordinator *)

(** [asyncio.gather] over [children]: children settle in completion [order];
    each stores its own result, and once all have settled the results
    are collected in the order of the children. [None]: some child never
    settles, the [await] does not return. *)
Definition gather {A} (order : list nat) (children : list A)
    : option (list A) :=
  let settled :=
    foldl (fun slots i => <[i := children !! i]> slots)
          (replicate (length children) None) order in
  mapM id settled.

(** The order in which children settle, from the time each one takes. *)
Definition settles_first (finish : nat -> nat) (i j : nat) : Prop :=
  (finish i <= finish j)%nat.

Global Instance settles_first_dec finish i j :
  Decision (settles_first finish i j).
Proof. unfold settles_first. apply _. Defined.

Definition completion_order (finish : nat -> nat) (n : nat) : list nat :=
  merge_sort (settles_first finish) (seq 0 n).

(** What the coordinator does to the window. *)
Inductive gui_call :=
  | Insert (text : pystr)
  | ShowError (title : pystr) (message : option pystr)
  | ShowWarning (title message : pystr)
  | See.

Section Coordinator.
Context `{RT : PyRuntime}.

(** [re.split(r"[,\n]", s)] *)
Definition is_sep (c : char) : bool := (c =? 44) || (c =? LF).

Fixpoint re_split (s : pystr) : list pystr :=
  match s with
  | [] => [[]]
  | c :: s' =>
      if is_sep c then [] :: re_split s'
      else match re_split s' with
           | t :: ts => (c :: t) :: ts
           | [] => [[c]]
           end
  end.

(** Truth value of a [str], and of an [Optional[str]]. *)
Definition truthy (s : pystr) : bool :=
  match s with [] => false | _ :: _ => true end.

Definition truthy_opt (o : option pystr) : bool :=
  match o with Some s => truthy s | None => false end.

(** [list(dict.fromkeys(l))]: keys in insertion order; inserting a key
    that is already present leaves the order alone. *)
Definition dict_fromkeys (l : list pystr) : list pystr :=
  foldl (fun keys k => if bool_decide (k ∈ keys) then keys else keys ++ [k])
        [] l.

(** Line 52. *)
Definition tokens (ad_ids : pystr) : list pystr :=
  filter (fun t => Is_true (truthy t)) (strip <$> re_split ad_ids).

Definition id_list (ad_ids : pystr) : list pystr :=
  dict_fromkeys (tokens ad_ids).

(** Lines 56-58. *)
Definition normalized_ids (ad_ids : pystr) : list (pystr * option pystr) :=
  (fun raw_id => (raw_id, normalize_ad_id raw_id)) <$> id_list ad_ids.

Definition valid_ids (ad_ids : pystr) : list (pystr * pystr) :=
  omap (fun '(raw_id, norm_id) =>
          match norm_id with
          | Some n => if truthy n then Some (raw_id, n) else None
          | None => None
          end) (normalized_ids ad_ids).

Definition invalid_ids (ad_ids : pystr) : list (pystr * option pystr) :=
  omap (fun '(raw_id, norm_id) =>
          if truthy_opt norm_id then None else Some (raw_id, None))
       (normalized_ids ad_ids).

(** Line 61: one fetch per element of [valid_ids], with these arguments. *)
Definition tasks (ad_ids zip_code : pystr) : list (pystr * pystr) :=
  (fun '(_, norm_id) => (norm_id, zip_code)) <$> valid_ids ad_ids.

(** The network as the batch sees it: what lines 26-28 do for the
    [i]-th task when it requests a URL. *)
Definition network : Type := nat -> pystr -> res json.

Definition run_tasks (net : network) (ts : list (pystr * pystr))
    : list outcome :=
  imap (fun i '(ad_id, zip_code) =>
          fetch_shipping_cost (net i) ad_id zip_code) ts.

(** The URLs requested during a batch, by task. *)
Definition requests (ad_ids zip_code : pystr) : list pystr :=
  (fun '(ad_id, zip) => request_url ad_id zip) <$> tasks ad_ids zip_code.

(** Line 64: later results overwrite earlier ones with the same id. *)
Definition result_dict (results : list outcome)
    : gmap pystr (option pyfloat * option pystr) :=
  foldl (fun d '(ad_id, cost, error) => <[ad_id := (cost, error)]> d)
        ∅ results.

(** One pass of the loop of lines 66-77, by branch. *)
Inductive entry :=
  | Quoted (raw_id norm_id : pystr) (cost : pyfloat)
  | Failed (raw_id norm_id : pystr) (error : option pystr)
  | InvalidInput (raw_id : pystr).

Definition entry_raw (e : entry) : pystr :=
  match e with
  | Quoted raw_id _ _ | Failed raw_id _ _ | InvalidInput raw_id => raw_id
  end.

(** The canonical identifier an entry reports on, if it was fetched. *)
Definition entry_norm (e : entry) : option pystr :=
  match e with
  | Quoted _ norm_id _ | Failed _ norm_id _ => Some norm_id
  | InvalidInput _ => None
  end.

Definition classify
    (d : gmap pystr (option pyfloat * option pystr))
    (p : pystr * option pystr) : entry :=
  let '(raw_id, norm_id) := p in
  match norm_id with
  | Some n =>
      if truthy n then
        let '(cost, error) :=
          default (None, Some (u "Unknown error")) (d !! n) in
        match cost with
        | Some c => Quoted raw_id n c
        | None => Failed raw_id n error
        end
      else InvalidInput raw_id
  | None => InvalidInput raw_id
  end.

Definition render (e : entry) : list gui_call :=
  match e with
  | Quoted _ norm_id cost =>
      [Insert (norm_id ++ u ": R$ " ++ format_2f cost ++ [LF]); See]
  | Failed _ norm_id error =>
      [Insert (norm_id ++ u ": Failed to retrieve cost" ++ [LF]);
       ShowError (u "Error") error; See]
  | InvalidInput raw_id =>
      [Insert (u "Skipping invalid ad ID: " ++ raw_id ++ [LF]);
       ShowWarning (u "Warning")
         (u "Invalid ad ID: " ++ raw_id
            ++ u ". Must be in the format MLB followed by numbers.");
       See]
  end.

(** The sequence of per-token results of a batch: the fetches settle at
    the times [finish] gives, results come back through [gather]. *)
Definition batch_result (net : network) (finish : nat -> nat)
    (ad_ids zip_code : pystr) : option (list entry) :=
  match id_list ad_ids with
  | [] => Some []
  | _ :: _ =>
      let ts := tasks ad_ids zip_code in
      results ← gather (completion_order finish (length ts))
                       (run_tasks net ts);
      Some (classify (result_dict results) <$> normalized_ids ad_ids)
  end.

(** [process_ad_ids], as the calls it makes on the window. *)
Definition process_ad_ids (net : network) (finish : nat -> nat)
    (ad_ids zip_code : pystr) : option (list gui_call) :=
  entries ← batch_result net finish ad_ids zip_code;
  Some (concat (render <$> entries)).

End Coordinator.

(** ** The button callback

    [calculate_shipping], the closure [run_gui] binds to the button. Its
    two arguments are what the widgets hand over: the text
    [ad_id_entry.get("1.0", tk.END)] and the text [zip_entry.get()]. *)

Inductive window_call :=
  | Dialog (c : gui_call)
  | DeleteAll
  | InsertResult (text : pystr)
  | UpdateWindow
  | After (ms : Z) (ad_ids zip_code : pystr).

Section Callback.
Context `{RT : PyRuntime}.

(** Line 95: the text starts with U+26A0 U+FE0F. *)
Definition notice : pystr :=
  [9888; 65039]
    ++ u " This tool extracts shipping costs only for Mercado Livre listings, not Mercado Shops."
    ++ [LF].

(** Lines 81-102. [After 0 ad_ids zip] is [window.after(0, run_async)],
    where [run_async] runs [process_ad_ids] on these two strings. *)
Definition calculate_shipping (ad_id_entry zip_entry : pystr)
    : list window_call :=
  let ad_ids := strip ad_id_entry in
  let zip_code := strip zip_entry in
  let normalized_zip := normalize_zip_code zip_code in
  let invalid_zip :=
    [Dialog (ShowError (u "Error")
               (Some (u "Invalid ZIP code. Must be 8 digits (e.g., 01001000).")))] in
  match normalized_zip with
  | Some z =>
      if negb (truthy z) then invalid_zip
      else if negb (truthy ad_ids) then
        [Dialog (ShowError (u "Error")
                   (Some (u "Please enter at least one ad ID.")))]
      else
        [DeleteAll;
         InsertResult notice;
         InsertResult (u "Fetching shipping costs..." ++ [LF]);
         UpdateWindow;
         After 0 ad_ids z]
  | None => invalid_zip
  end.

(** Lines 99-100. *)
Definition run_async (net : network) (finish : nat -> nat)
    (ad_ids normalized_zip : pystr) : option (list gui_call) :=
  process_ad_ids net finish ad_ids normalized_zip.

End Callback.

(** ** Reading a log of window calls *)

Definition is_insert (c : gui_call) : bool :=
  match c with Insert _ => true | _ => false end.

Definition is_warning (c : gui_call) : bool :=
  match c with ShowWarning _ _ => true | _ => false end.

Definition is_error (c : gui_call) : bool :=
  match c with ShowError _ _ => true | _ => false end.

(** How many calls of a log satisfy [p]. *)
Definition count_calls (p : gui_call -> bool) (calls : list gui_call) : nat :=
  length (filter (fun c => Is_true (p c)) calls).

(** A runtime for evaluating the definitions on concrete inputs: the
    tables hold the ASCII digits only, floats are whole numbers written in
    decimal, [float(s)] accepts a non-empty run of ASCII digits. *)
Definition Z_of_digits (s : pystr) : option Z :=
  match s with
  | [] => None
  | _ => if forallb ascii_digit s
         then Some (foldl (fun a c => (10 * a + Z.of_N (c - 48))%Z) 0%Z s)
         else None
  end.

Definition whole_runtime : PyRuntime := {|
  pyfloat := Z;
  float_of_int := Some;
  float_of_str := Z_of_digits;
  format_2f := fun z => u (NilZero.string_of_int (Z.to_int z)) ++ u ".00";
  exn_str := fun e => u "error";
  re_digit := ascii_digit;
  uni_isdigit := ascii_digit;
  re_digit_ascii := fun _ _ => eq_refl;
  uni_isdigit_ascii := fun _ _ => eq_refl;
|}.

(** A postal code, and a network on which every request ends in
    HTTP 404, for the same purpose. *)
Definition sample_zip : list N := u "01001000".

Definition net404 : @network whole_runtime :=
  fun _ _ => Raise (Exn ClientResponseError 404).

(** A network on which the first request ends in HTTP 404 and every later
    one in HTTP 500, and two batches run on these networks. *)
Definition net404_then_500 : @network whole_runtime :=
  fun i _ => if (i =? 0)%nat then Raise (Exn ClientResponseError 404)
             else Raise (Exn ClientResponseError 500).

Definition shared_id_entries : list (@entry whole_runtime) :=
  default [] (@batch_result whole_runtime net404_then_500 (fun i => i)
                (u "MLB1,1") sample_zip).

Definition three_token_calls : list gui_call :=
  default [] (@process_ad_ids whole_runtime net404 (fun i => i)
                (u "MLB1,BLM1,MLB2") sample_zip).

(** * Properties *)

(** ** Strings *)

Lemma is_space_range c : is_space c = true -> c <= 32 \/ 133 <= c.
Proof.
  unfold is_space.
  rewrite !orb_true_iff, !andb_true_iff, !N.eqb_eq, !N.leb_le. lia.
Qed.

Lemma in_MLB09_range c : in_MLB09 c = true -> 48 <= c <= 77.
Proof.
  unfold in_MLB09, ascii_digit.
  rewrite !orb_true_iff, !andb_true_iff, !N.eqb_eq, !N.leb_le. lia.
Qed.

Lemma ascii_digit_in_MLB09 c : ascii_digit c = true -> in_MLB09 c = true.
Proof. unfold in_MLB09. intros ->. by rewrite !orb_true_r. Qed.

Lemma in_MLB09_not_space c : in_MLB09 c = true -> is_space c = false.
Proof.
  intros H%in_MLB09_range. destruct (is_space c) eqn:E; [|done].
  apply is_space_range in E. lia.
Qed.

Lemma lstrip_no_space s :
  Forall (fun c => is_space c = false) s -> lstrip s = s.
Proof. destruct 1 as [|c s Hc _]; simpl; [done|]. by rewrite Hc. Qed.

Lemma strip_no_space s :
  Forall (fun c => is_space c = false) s -> strip s = s.
Proof.
  intros H. unfold strip. rewrite (lstrip_no_space s H).
  rewrite lstrip_no_space by by apply Forall_reverse.
  apply reverse_involutive.
Qed.

Lemma re_sub_not_class cls s :
  Forall (fun c => cls c = true) (re_sub_not cls s).
Proof.
  apply Forall_forall. intros c [Hc _]%list_elem_of_filter.
  by apply Is_true_eq_true.
Qed.

Lemma re_sub_not_fixed cls s :
  Forall (fun c => cls c = true) s -> re_sub_not cls s = s.
Proof.
  unfold re_sub_not. induction 1 as [|c s Hc _ IH]; [done|].
  rewrite filter_cons_True by by rewrite Hc. by rewrite IH.
Qed.

Lemma startswith_app p s : startswith p (p ++ s) = true.
Proof. induction p as [|a p IH]; simpl; [done|]. by rewrite N.eqb_refl. Qed.

(** ** The normalisers *)

Section NormalizerFacts.
Context `{RT : PyRuntime}.

(** What [normalize_ad_id] returns is made of the class [MLB0-9], starts
    with the prefix and passes the final check. *)
Lemma normalize_ad_id_Some raw y :
  normalize_ad_id raw = Some y ->
  Forall (fun c => in_MLB09 c = true) y
  /\ startswith (u "MLB") y = true
  /\ re_match_MLB_digits y = true.
Proof.
  unfold normalize_ad_id.
  set (c0 := re_sub_not in_MLB09 (strip raw)).
  assert (H0 : Forall (fun c => in_MLB09 c = true) c0)
    by apply re_sub_not_class.
  destruct (startswith (u "MLB") c0) eqn:Hs; cbn [negb].
  - destruct (re_match_MLB_digits c0) eqn:Hm; [|done].
    intros [= <-]. by split_and!.
  - destruct (re_match_MLB_digits (u "MLB" ++ c0)) eqn:Hm; [|done].
    intros Hy. apply (inj Some) in Hy. subst y.
    split_and!; [|apply startswith_app|done].
    apply Forall_app. split; [|done].
    by repeat constructor.
Qed.

(** A canonical identifier is never the empty string. *)
Lemma normalize_ad_id_truthy raw y :
  normalize_ad_id raw = Some y -> exists c y', y = c :: y'.
Proof.
  intros (_ & Hs & _)%normalize_ad_id_Some.
  destruct y; [done|eauto].
Qed.

(** C8. [normalize_ad_id] is idempotent on its successes: when
    [normalize_ad_id x] is some [y], [normalize_ad_id y] is [y] again. *)
Theorem normalize_ad_id_idempotent (x y : pystr) :
  normalize_ad_id x = Some y -> normalize_ad_id y = Some y.
Proof.
  intros (Hcls & Hs & Hm)%normalize_ad_id_Some.
  unfold normalize_ad_id.
  rewrite strip_no_space
    by (eapply Forall_impl; [exact Hcls|apply in_MLB09_not_space]).
  rewrite re_sub_not_fixed by done.
  rewrite Hs. cbn [negb]. by rewrite Hm.
Qed.

Lemma isdigit_ascii s :
  s <> [] -> Forall (fun c => ascii_digit c = true) s -> isdigit s = true.
Proof.
  intros Hne H. destruct s as [|c s]; [done|].
  unfold isdigit. apply Is_true_eq_true, forallb_True, Forall_forall.
  intros d Hd. apply Is_true_eq_left.
  eapply Forall_forall in H; [|exact Hd]. cbv beta in H.
  rewrite uni_isdigit_ascii; [done|].
  apply ascii_digit_in_MLB09, in_MLB09_range in H. lia.
Qed.

(** C9. Whenever [normalize_zip_code] returns a value, that value has
    length exactly 8 and consists of the decimal digits 0-9 only;
    "01.001-000" normalises to "01001000" and the 7-digit "0100100"
    to [None]. *)
Theorem normalize_zip_code_canonical :
  (forall raw z : pystr,
      normalize_zip_code raw = Some z ->
      length z = 8%nat /\ Forall (fun c => ascii_digit c = true) z)
  /\ normalize_zip_code (u "01.001-000") = Some (u "01001000")
  /\ normalize_zip_code (u "0100100") = None.
Proof.
  split_and!.
  - intros raw z. unfold normalize_zip_code.
    destruct (length _ =? 8)%nat eqn:Hlen; simpl; [|done].
    destruct (isdigit _); [|done]. intros [= <-]. split.
    + by apply Nat.eqb_eq.
    + apply re_sub_not_class.
  - unfold normalize_zip_code.
    replace (re_sub_not ascii_digit (strip (u "01.001-000")))
      with (u "01001000") by (vm_compute; reflexivity).
    rewrite isdigit_ascii; [done|done|].
    by repeat constructor.
  - unfold normalize_zip_code.
    replace (re_sub_not ascii_digit (strip (u "0100100")))
      with (u "0100100") by (vm_compute; reflexivity).
    done.
Qed.

End NormalizerFacts.

(** ** The fetcher *)


Section FetcherFacts.
Context `{RT : PyRuntime}.

(** Every [except] clause returns the id, no cost and a message. *)
Lemma handle_failure ad_id error :
  exists msg, handle ad_id error = (ad_id, None, Some msg) /\ msg <> [].
Proof.
  unfold handle.
  repeat match goal with
         | |- context [if ?b then _ else _] => destruct b
         end; eexists; (split; [reflexivity|done]).
Qed.

(** Lines 29-31 return in one of two ways. *)
Lemma read_cost_Ok ad_id data result :
  read_cost ad_id data = Ok result ->
  (exists cost, result = (ad_id, Some cost, None))
  \/ result = (ad_id, None, Some (u "No shipping options available")).
Proof.
  unfold read_cost, res_bind.
  destruct (py_contains _ _) as [has|]; [|done].
  destruct (if has then _ else _) as [[]|]; [| |done].
  - repeat match goal with
           | |- context [match ?r with Ok _ => _ | Raise _ => _ end] =>
               destruct r; [|done]
           end.
    intros [= <-]. eauto.
  - intros [= <-]. eauto.
Qed.

(** The body being an object with an [options] array, the guard of
    line 29 is the length test. *)
Lemma read_cost_options ad_id fields opts :
  fields !! u "options" = Some (JArr opts) ->
  read_cost ad_id (JObj fields) =
    if (2 <? length opts)%nat
    then third <- py_index (JArr opts) 2 ;;
         list_cost <- py_getitem third (u "list_cost") ;;
         cost <- py_float list_cost ;;
         Ok (ad_id, Some cost, None)
    else Ok (ad_id, None, Some (u "No shipping options available")).
Proof.
  intros Hopts. unfold read_cost, py_contains, py_getitem at 1 2.
  rewrite Hopts. simpl. by destruct (2 <? length opts)%nat.
Qed.

(** C1, as the code has it. For a response that passed
    [raise_for_status] and whose parsed body is an object holding an
    [options] array: with 2 or fewer elements the result is the failure
    "No shipping options available". With more than 2 elements the
    result is the success with cost [c] exactly when the element at
    index 2 is an object whose [list_cost] field [float()] converts to
    [c]; when that element is no object ([TypeError]) or has no
    [list_cost] ([KeyError]) the result is the failure with the
    unexpected-error text; when [float()] raises on the field the result
    is the failure with the invalid-response text if what it raises is a
    [ValueError], and with the unexpected-error text otherwise. *)
Theorem fetch_options_array session ad_id zip_code fields opts :
  session (request_url ad_id zip_code) = Ok (JObj fields) ->
  fields !! u "options" = Some (JArr opts) ->
  ((length opts <= 2)%nat ->
     fetch_shipping_cost session ad_id zip_code
     = (ad_id, None, Some (u "No shipping options available")))
  /\ ((2 < length opts)%nat ->
      (forall c,
          fetch_shipping_cost session ad_id zip_code = (ad_id, Some c, None)
          <-> exists third v,
              opts !! 2%nat = Some (JObj third)
              /\ third !! u "list_cost" = Some v
              /\ py_float v = Ok c)
      /\ (exists third, opts !! 2%nat = Some third)
      /\ (forall third,
             opts !! 2%nat = Some third ->
             (forall third_fields, third <> JObj third_fields) ->
             fetch_shipping_cost session ad_id zip_code
             = (ad_id, None,
                Some (u "Unexpected error: " ++ exn_str (Exn TypeError 0)
                        ++ u ". Please contact the developer with this error message.")))
      /\ (forall third,
             opts !! 2%nat = Some (JObj third) ->
             third !! u "list_cost" = None ->
             fetch_shipping_cost session ad_id zip_code
             = (ad_id, None,
                Some (u "Unexpected error: " ++ exn_str (Exn KeyError 0)
                        ++ u ". Please contact the developer with this error message.")))
      /\ (forall third v error,
             opts !! 2%nat = Some (JObj third) ->
             third !! u "list_cost" = Some v ->
             py_float v = Raise error ->
             fetch_shipping_cost session ad_id zip_code
             = (ad_id, None,
                Some (if isinstance error ValueError
                      then u "Invalid response: " ++ exn_str error
                             ++ u ". The API returned unexpected data. Try again or contact the developer."
                      else u "Unexpected error: " ++ exn_str error
                             ++ u ". Please contact the developer with this error message."))
             /\ (isinstance error ValueError = true
                 <-> exists s, v = JStr s /\ float_of_str s = None))).
Proof.
  intros Hs Hopts. unfold fetch_shipping_cost. rewrite Hs.
  cbn [res_bind]. rewrite (read_cost_options _ _ _ Hopts).
  split.
  - intros Hle. by replace (2 <? length opts)%nat with false
      by (symmetry; apply Nat.ltb_ge; lia).
  - intros Hlt. replace (2 <? length opts)%nat with true
      by (symmetry; apply Nat.ltb_lt; lia).
    assert (Hno : forall e c, handle ad_id e <> (ad_id, Some c, None)).
    { intros e c. destruct (handle_failure ad_id e) as (msg & -> & _).
      done. }
    split_and!.
    + intros c. unfold py_index, py_getitem, res_bind, raise. split.
      * destruct (opts !! 2%nat) as [[| | | | | |third]|];
          try (intros H; by apply Hno in H).
        destruct (third !! u "list_cost") as [v|] eqn:Hv;
          [|intros H; by apply Hno in H].
        destruct (py_float v) as [c'|e] eqn:Hf;
          [|intros H; by apply Hno in H].
        intros [= <-]. by exists third, v.
      * intros (third & v & -> & -> & ->). done.
    + by apply lookup_lt_is_Some_2.
    + intros third H2 Hobj. unfold py_index, py_getitem, res_bind.
      rewrite H2. destruct third as [| | | | | |third_fields]; try done.
      by destruct (Hobj third_fields).
    + intros third H2 Hv. unfold py_index, py_getitem, res_bind.
      by rewrite H2, Hv.
    + intros third v error H2 Hv Hf. unfold py_index, py_getitem, res_bind.
      rewrite H2, Hv, Hf. unfold py_float, raise in Hf.
      destruct v as [|b|n|x|s|items|vf]; repeat case_match; simplify_eq;
        (split; [reflexivity|]);
        (split; [try done; by eauto|]);
        try (by intros (? & ? & ?)).
      all: intros (s' & [= <-] & Hs'); congruence.
Qed.

(** C10. A response that passed [raise_for_status] and whose parsed body
    is an object without an [options] key gives the failure
    "No shipping options available". *)
Theorem fetch_missing_options session ad_id zip_code fields :
  session (request_url ad_id zip_code) = Ok (JObj fields) ->
  fields !! u "options" = None ->
  fetch_shipping_cost session ad_id zip_code
  = (ad_id, None, Some (u "No shipping options available")).
Proof.
  intros Hs Hnone. unfold fetch_shipping_cost. rewrite Hs.
  cbn [res_bind]. unfold read_cost, py_contains. by rewrite Hnone.
Qed.

(** A body that is no container at all is not covered by the guard of
    line 29: the membership test itself raises [TypeError], which the
    last [except] clause reports. *)
Lemma fetch_scalar_body session ad_id zip_code data :
  session (request_url ad_id zip_code) = Ok data ->
  match data with
  | JNull | JBool _ | JInt _ | JFloat _ => True
  | _ => False
  end ->
  fetch_shipping_cost session ad_id zip_code
  = handle ad_id (Exn TypeError 0).
Proof.
  intros Hs Hd. unfold fetch_shipping_cost. rewrite Hs.
  by destruct data.
Qed.



(** The fetcher always returns, with the id it was given, either a
    cost read from a parsed body or a non-empty message. *)
Lemma fetch_shipping_cost_returns session ad_id zip_code :
  (exists cost data,
      fetch_shipping_cost session ad_id zip_code = (ad_id, Some cost, None)
      /\ session (request_url ad_id zip_code) = Ok data)
  \/ (exists msg,
        fetch_shipping_cost session ad_id zip_code = (ad_id, None, Some msg)
        /\ msg <> []).
Proof.
  unfold fetch_shipping_cost.
  destruct (session _) as [data|e]; cbn [res_bind].
  - destruct (read_cost ad_id data) as [r|e] eqn:Hr.
    + apply read_cost_Ok in Hr as [[c ->]| ->]; [left|right]; eauto.
    + right. apply handle_failure.
  - right. apply handle_failure.
Qed.

Lemma fetch_shipping_cost_id session ad_id zip_code :
  (fetch_shipping_cost session ad_id zip_code).1.1 = ad_id.
Proof.
  by destruct (fetch_shipping_cost_returns session ad_id zip_code)
    as [(? & ? & -> & _)|(? & -> & _)].
Qed.

End FetcherFacts.

(** ** Deduplication through a dictionary *)

Section FromKeys.
Implicit Types (l keys : list (list N)) (k x y : list N).

Lemma dict_fromkeys_snoc l k :
  dict_fromkeys (l ++ [k]) =
    if bool_decide (k ∈ dict_fromkeys l)
    then dict_fromkeys l else dict_fromkeys l ++ [k].
Proof. unfold dict_fromkeys. by rewrite foldl_snoc. Qed.

Lemma elem_of_dict_fromkeys l x : x ∈ dict_fromkeys l <-> x ∈ l.
Proof.
  induction l as [|k l IH] using rev_ind; [done|].
  rewrite dict_fromkeys_snoc. case_bool_decide as Hk.
  - rewrite elem_of_app, list_elem_of_singleton, IH.
    split; [tauto|]. intros [?| ->]; [done|]. by apply IH.
  - by rewrite !elem_of_app, IH.
Qed.

Lemma NoDup_dict_fromkeys l : NoDup (dict_fromkeys l).
Proof.
  induction l as [|k l IH] using rev_ind; [constructor|].
  rewrite dict_fromkeys_snoc. case_bool_decide as Hk; [done|].
  apply NoDup_app. split_and!; [done| |apply NoDup_singleton].
  intros x Hx ->%list_elem_of_singleton. done.
Qed.

(** Keys stand in the order of their first occurrence: a key that comes
    earlier in the result occurs in the input before every occurrence of
    a key that comes later. *)
Lemma dict_fromkeys_first_occurrence l (i j : nat) x y :
  dict_fromkeys l !! i = Some x ->
  dict_fromkeys l !! j = Some y ->
  (i < j)%nat ->
  exists p : nat,
    l !! p = Some x /\ forall q : nat, l !! q = Some y -> (p < q)%nat.
Proof.
  revert i j x y. induction l as [|k l IH] using rev_ind; [done|].
  intros i j x y. rewrite dict_fromkeys_snoc.
  assert (Hold : forall p' q' : nat,
             l !! p' = Some x ->
             (forall q : nat, l !! q = Some y -> (p' < q)%nat) ->
             (l ++ [k]) !! q' = Some y -> (p' < q')%nat).
  { intros p' q' Hp Hall Hq.
    apply lookup_lt_Some in Hp as Hlt.
    destruct (decide (q' < length l)%nat).
    - rewrite lookup_app_l in Hq by done. by apply Hall.
    - lia. }
  case_bool_decide as Hk.
  - intros Hi Hj Hij. destruct (IH _ _ _ _ Hi Hj Hij) as (p & Hp & Hall).
    exists p. split; [by apply lookup_app_l_Some|]. eauto.
  - intros Hi Hj Hij.
    apply lookup_lt_Some in Hj as Hjlt. rewrite length_app in Hjlt.
    simpl in Hjlt.
    rewrite lookup_app_l in Hi by lia.
    destruct (decide (j < length (dict_fromkeys l))%nat) as [Hlt|Hge].
    + rewrite lookup_app_l in Hj by done.
      destruct (IH _ _ _ _ Hi Hj Hij) as (p & Hp & Hall).
      exists p. split; [by apply lookup_app_l_Some|]. eauto.
    + rewrite lookup_app_r in Hj by lia.
      replace (j - length (dict_fromkeys l))%nat with 0%nat in Hj by lia.
      injection Hj as <-.
      assert (Hx : x ∈ l).
      { apply elem_of_dict_fromkeys. by eapply list_elem_of_lookup_2. }
      apply list_elem_of_lookup in Hx as [p Hp].
      exists p. split; [by apply lookup_app_l_Some|].
      intros q Hq. apply lookup_lt_Some in Hp as Hplt.
      destruct (decide (q < length l)%nat); [|lia].
      rewrite lookup_app_l in Hq by done.
      destruct Hk. apply elem_of_dict_fromkeys.
      by eapply list_elem_of_lookup_2.
Qed.

Lemma length_dict_fromkeys l :
  length (dict_fromkeys l) = size (list_to_set l : gset (list N)).
Proof.
  rewrite <- (size_list_to_set (C := gset (list N)) (dict_fromkeys l))
    by apply NoDup_dict_fromkeys.
  f_equal. apply set_eq. intros x.
  by rewrite !elem_of_list_to_set, elem_of_dict_fromkeys.
Qed.

End FromKeys.

(** ** Gathering *)

Section Gather.
Context {A : Type}.
Implicit Types (children : list A) (order : list nat).

Lemma gather_slots children order (slots : list (option A)) (i : nat) :
  length slots = length children ->
  (i < length children)%nat ->
  foldl (fun s j => <[j := children !! j]> s) slots order !! i
  = if decide (i ∈ order) then Some (children !! i) else slots !! i.
Proof.
  intros Hlen Hi. revert slots Hlen.
  induction order as [|j order IH]; intros slots Hlen; [done|].
  cbn [foldl]. rewrite IH by by rewrite length_insert.
  destruct (decide (i ∈ order)) as [Hin|Hnin].
  - rewrite decide_True; [done|by right].
  - destruct (decide (i = j)) as [->|Hne].
    + rewrite decide_True by by left.
      apply list_lookup_insert_eq. lia.
    + rewrite decide_False.
      * by apply list_lookup_insert_ne.
      * intros [->|?]%elem_of_cons; done.
Qed.

Lemma gather_slots_length children order (slots : list (option A)) :
  length (foldl (fun s j => <[j := children !! j]> s) slots order)
  = length slots.
Proof.
  revert slots. induction order as [|j order IH]; intros slots; [done|].
  cbn [foldl]. by rewrite IH, length_insert.
Qed.

(** Whatever the order in which the children settle, once each has
    settled the results come back in the order of the children. *)
Lemma gather_all children order :
  order ≡ₚ seq 0 (length children) ->
  gather order children = Some children.
Proof.
  intros Hperm. unfold gather.
  set (settled := foldl _ _ _).
  assert (Hs : settled = Some <$> children).
  { apply list_eq. intros i. rewrite list_lookup_fmap.
    destruct (decide (i < length children)%nat) as [Hi|Hi].
    - unfold settled. rewrite gather_slots
        by (by rewrite ?length_replicate).
      rewrite decide_True.
      + destruct (lookup_lt_is_Some_2 children i Hi) as [c Hc].
        by rewrite Hc.
      + rewrite Hperm. apply elem_of_seq. lia.
    - rewrite (lookup_ge_None_2 children) by lia.
      apply lookup_ge_None_2. unfold settled.
      rewrite gather_slots_length, length_replicate. lia. }
  rewrite Hs. by apply mapM_fmap_Some.
Qed.

Lemma gather_completion_order finish children :
  gather (completion_order finish (length children)) children
  = Some children.
Proof. apply gather_all, merge_sort_Permutation. Qed.

End Gather.

(** ** The coordinator *)

Lemma span_all (p : N -> bool) (s : list N) :
  Forall (fun c => p c = true) s -> span p s = (s, []).
Proof.
  induction 1 as [|c s Hc _ IH]; [done|].
  cbn [span]. by rewrite Hc, IH.
Qed.

Section CoordinatorFacts.
Context `{RT : PyRuntime}.

Lemma re_digit_of_ascii c : ascii_digit c = true -> re_digit c = true.
Proof.
  intros H. rewrite re_digit_ascii; [done|].
  apply ascii_digit_in_MLB09, in_MLB09_range in H. lia.
Qed.

(** The final check accepts the prefix followed by ASCII digits. *)
Lemma re_match_MLB_ascii_digits c ds :
  Forall (fun c => ascii_digit c = true) (c :: ds) ->
  re_match_MLB_digits (77 :: 76 :: 66 :: c :: ds) = true.
Proof.
  intros H. unfold re_match_MLB_digits.
  rewrite span_all; [done|].
  eapply Forall_impl; [exact H|]. apply re_digit_of_ascii.
Qed.

(** The final check rejects a letter right after the prefix. *)
Lemma re_match_MLB_letter c rest :
  c < 128 -> ascii_digit c = false ->
  re_match_MLB_digits (77 :: 76 :: 66 :: c :: rest) = false.
Proof.
  intros Hc Hd. unfold re_match_MLB_digits. cbn [span].
  by rewrite re_digit_ascii, Hd.
Qed.

(** An identifier already in canonical form is returned as it is. *)
Lemma normalize_ad_id_canonical c ds :
  Forall (fun c => ascii_digit c = true) (c :: ds) ->
  normalize_ad_id (77 :: 76 :: 66 :: c :: ds)
  = Some (77 :: 76 :: 66 :: c :: ds).
Proof.
  intros H.
  assert (Hcls : Forall (fun c => in_MLB09 c = true)
                   (77 :: 76 :: 66 :: c :: ds)).
  { repeat (constructor; [done|]).
    eapply Forall_impl; [exact H|]. apply ascii_digit_in_MLB09. }
  unfold normalize_ad_id.
  rewrite strip_no_space
    by (eapply Forall_impl; [exact Hcls|apply in_MLB09_not_space]).
  rewrite re_sub_not_fixed by done.
  replace (startswith (u "MLB") (77 :: 76 :: 66 :: c :: ds)) with true
    by (symmetry; apply (startswith_app (u "MLB") (c :: ds))).
  cbn [negb]. by rewrite re_match_MLB_ascii_digits.
Qed.

Lemma valid_ids_omap ad_ids :
  valid_ids ad_ids
  = omap (fun raw_id => (raw_id,.) <$> normalize_ad_id raw_id)
         (id_list ad_ids).
Proof.
  unfold valid_ids, normalized_ids.
  induction (id_list ad_ids) as [|raw l IH]; [done|].
  cbn [fmap list_fmap omap list_omap]. rewrite IH.
  destruct (normalize_ad_id raw) as [n|] eqn:Hn; [|done].
  by destruct (normalize_ad_id_truthy _ _ Hn) as (c & n' & ->).
Qed.

Lemma elem_of_valid_ids ad_ids raw n :
  (raw, n) ∈ valid_ids ad_ids
  <-> raw ∈ id_list ad_ids /\ normalize_ad_id raw = Some n.
Proof.
  rewrite valid_ids_omap, list_elem_of_omap. split.
  - intros (raw' & Hin & Heq).
    destruct (normalize_ad_id raw') eqn:Hn; [|done].
    by injection Heq as -> ->.
  - intros [Hin Hn]. exists raw. by rewrite Hn.
Qed.

Lemma tasks_ids ad_ids zip_code :
  (tasks ad_ids zip_code).*1 = omap normalize_ad_id (id_list ad_ids).
Proof.
  unfold tasks. rewrite valid_ids_omap.
  induction (id_list ad_ids) as [|raw l IH]; [done|].
  cbn [omap list_omap]. destruct (normalize_ad_id raw); [|done].
  cbn. by f_equal.
Qed.

Lemma length_run_tasks net ts : length (run_tasks net ts) = length ts.
Proof. apply length_imap. Qed.

(** The [i]-th outcome is the one of the [i]-th fetch, and carries the
    id that fetch was given. *)
Lemma run_tasks_lookup net ts (i : nat) ad_id zip_code :
  ts !! i = Some (ad_id, zip_code) ->
  run_tasks net ts !! i
  = Some (fetch_shipping_cost (net i) ad_id zip_code).
Proof.
  intros H. unfold run_tasks. by rewrite list_lookup_imap, H.
Qed.

(** The batch always completes, and its result does not depend on the
    completion times. *)
Lemma batch_result_eq net finish ad_ids zip_code :
  batch_result net finish ad_ids zip_code
  = Some (classify (result_dict (run_tasks net (tasks ad_ids zip_code)))
            <$> normalized_ids ad_ids).
Proof.
  unfold batch_result, normalized_ids.
  destruct (id_list ad_ids) as [|raw l] eqn:Hl; [done|].
  rewrite <- (length_run_tasks net).
  by rewrite gather_completion_order.
Qed.

Lemma entry_raw_classify d raw norm :
  entry_raw (classify d (raw, norm)) = raw.
Proof.
  unfold classify. destruct norm as [[|c n]|]; [done| |done].
  cbn [truthy]. by destruct (default _ _) as [[cost|] error].
Qed.

Lemma entry_norm_classify d raw c n :
  entry_norm (classify d (raw, Some (c :: n))) = Some (c :: n).
Proof.
  unfold classify. cbn [truthy].
  by destruct (default _ _) as [[cost|] error].
Qed.

Lemma batch_result_raw net finish ad_ids zip_code entries :
  batch_result net finish ad_ids zip_code = Some entries ->
  entry_raw <$> entries = id_list ad_ids.
Proof.
  rewrite batch_result_eq. intros [= <-].
  unfold normalized_ids. rewrite <- !list_fmap_compose.
  rewrite <- (list_fmap_id (id_list ad_ids)) at 2.
  apply list_fmap_ext. intros _ raw _. apply entry_raw_classify.
Qed.

Lemma omap_NoDup {X Y} (f : X -> option Y) (l : list X) :
  NoDup l ->
  (forall x1 x2 y, x1 ∈ l -> x2 ∈ l ->
                   f x1 = Some y -> f x2 = Some y -> x1 = x2) ->
  NoDup (omap f l).
Proof.
  induction 1 as [|x l Hx Hl IH]; intros Hinj; [constructor|].
  cbn [omap list_omap].
  assert (Hrest : NoDup (omap f l)).
  { apply IH. intros x1 x2 y H1 H2. apply Hinj; by right. }
  destruct (f x) as [y|] eqn:Hfx; [|done].
  constructor; [|done].
  intros (x' & Hx' & Hfx')%list_elem_of_omap.
  destruct Hx. replace x with x'; [done|].
  apply (Hinj x' x y); [by right|by left|done..].
Qed.

(** C2. A batch always yields a sequence of entries, one per distinct
    trimmed non-empty token of the blob, in the order in which the
    tokens first occur, whatever the times at which the fetches
    complete; the blob "MLB1,MLB1,MLB2" yields exactly two entries, the
    first for MLB1 and the second for MLB2. *)
Theorem batch_result_order :
  (forall net finish ad_ids zip_code,
      exists entries,
        batch_result net finish ad_ids zip_code = Some entries
        /\ (forall finish',
               batch_result net finish' ad_ids zip_code = Some entries)
        /\ entry_raw <$> entries = id_list ad_ids
        /\ length entries
           = size (list_to_set (tokens ad_ids) : gset (list N))
        /\ NoDup (entry_raw <$> entries)
        /\ (forall raw, raw ∈ entry_raw <$> entries <-> raw ∈ tokens ad_ids)
        /\ (forall (i j : nat) x y,
               (entry_raw <$> entries) !! i = Some x ->
               (entry_raw <$> entries) !! j = Some y ->
               (i < j)%nat ->
               exists p : nat,
                 tokens ad_ids !! p = Some x
                 /\ forall q : nat,
                     tokens ad_ids !! q = Some y -> (p < q)%nat))
  /\ (forall net finish zip_code,
         exists e1 e2,
           batch_result net finish (u "MLB1,MLB1,MLB2") zip_code
           = Some [e1; e2]
           /\ entry_raw e1 = u "MLB1" /\ entry_norm e1 = Some (u "MLB1")
           /\ entry_raw e2 = u "MLB2" /\ entry_norm e2 = Some (u "MLB2")).
Proof.
  split.
  - intros net finish ad_ids zip_code.
    eexists. split; [apply batch_result_eq|].
    split; [intros finish'; apply batch_result_eq|].
    pose proof (batch_result_raw net finish ad_ids zip_code _
                  (batch_result_eq _ _ _ _)) as Hraw.
    split; [exact Hraw|].
    split.
    { rewrite <- (length_fmap entry_raw), Hraw.
      apply length_dict_fromkeys. }
    rewrite Hraw. split_and!.
    + apply NoDup_dict_fromkeys.
    + intros raw. apply elem_of_dict_fromkeys.
    + apply dict_fromkeys_first_occurrence.
  - intros net finish zip_code.
    rewrite batch_result_eq. unfold normalized_ids.
    replace (id_list (u "MLB1,MLB1,MLB2"))
      with [77 :: 76 :: 66 :: [49]; 77 :: 76 :: 66 :: [50]]
      by (vm_compute; reflexivity).
    cbn [fmap list_fmap].
    rewrite !normalize_ad_id_canonical by by repeat constructor.
    eexists _, _. split; [reflexivity|].
    by rewrite !entry_raw_classify, !entry_norm_classify.
Qed.

End CoordinatorFacts.

(** ** Which tokens are fetched *)

Section Fetched.
Context `{RT : PyRuntime}.

Lemma requests_origin ad_ids zip_code url :
  url ∈ requests ad_ids zip_code ->
  exists raw n,
    raw ∈ id_list ad_ids /\ normalize_ad_id raw = Some n
    /\ url = request_url n zip_code.
Proof.
  unfold requests, tasks. rewrite <- list_fmap_compose.
  intros ([raw n] & -> & Hin)%list_elem_of_fmap.
  apply elem_of_valid_ids in Hin as [Hin Hn]. by exists raw, n.
Qed.

(** C7. A raw token that fails normalisation gets its invalid-input
    entry while no fetch is created for it: it is not among the tokens
    paired with a task, and every URL requested during the batch
    belongs to another token, one that normalised. *)
Theorem invalid_token_not_fetched net finish ad_ids zip_code raw :
  raw ∈ id_list ad_ids ->
  normalize_ad_id raw = None ->
  (raw ∉ (valid_ids ad_ids).*1)
  /\ (forall url,
         url ∈ requests ad_ids zip_code ->
         exists raw' n,
           raw' ∈ id_list ad_ids /\ raw' <> raw
           /\ normalize_ad_id raw' = Some n
           /\ url = request_url n zip_code)
  /\ exists entries,
      batch_result net finish ad_ids zip_code = Some entries
      /\ InvalidInput raw ∈ entries.
Proof.
  intros Hin Hnone. split_and!.
  - intros ([raw' n] & -> & Hv)%list_elem_of_fmap.
    apply elem_of_valid_ids in Hv as [_ Hn]. cbn in Hnone. congruence.
  - intros url (raw' & n & Hin' & Hn & ->)%requests_origin.
    exists raw', n. split_and!; [done| |done..]. congruence.
  - eexists. split; [apply batch_result_eq|].
    apply list_elem_of_fmap. exists (raw, None). split; [done|].
    unfold normalized_ids. apply list_elem_of_fmap.
    exists raw. by rewrite Hnone.
Qed.

(** C6, as the code has it. Tasks are created per distinct raw token:
    the fetcher is invoked once for each distinct raw token that
    normalises, with that token's canonical identifier, and each
    invocation yields one outcome, carrying the identifier it was given;
    the canonical identifiers fetched are pairwise distinct provided no
    two distinct raw tokens of the batch share a canonical form. *)
Theorem fetch_once_per_valid_token net ad_ids zip_code :
  (tasks ad_ids zip_code).*1 = omap normalize_ad_id (id_list ad_ids)
  /\ NoDup (id_list ad_ids)
  /\ length (run_tasks net (tasks ad_ids zip_code))
     = length (tasks ad_ids zip_code)
  /\ (forall (i : nat) ad_id zip,
         tasks ad_ids zip_code !! i = Some (ad_id, zip) ->
         exists cost error,
           run_tasks net (tasks ad_ids zip_code) !! i
           = Some (ad_id, cost, error))
  /\ ((forall r1 r2 n,
          r1 ∈ id_list ad_ids -> r2 ∈ id_list ad_ids ->
          normalize_ad_id r1 = Some n -> normalize_ad_id r2 = Some n ->
          r1 = r2) ->
      NoDup (tasks ad_ids zip_code).*1).
Proof.
  split_and!.
  - apply tasks_ids.
  - apply NoDup_dict_fromkeys.
  - apply length_run_tasks.
  - intros i ad_id zip Hi.
    pose proof (fetch_shipping_cost_id (net i) ad_id zip) as Hid.
    destruct (fetch_shipping_cost _ _ _) as [[id cost] error] eqn:Hf.
    cbn in Hid. subst id. exists cost, error.
    pose proof (run_tasks_lookup net _ _ _ _ Hi) as Hr.
    rewrite Hf in Hr. exact Hr.
  - intros Hinj. rewrite tasks_ids.
    apply omap_NoDup; [apply NoDup_dict_fromkeys|done].
Qed.

Lemma tasks_single_valid ad_ids zip_code raw n :
  id_list ad_ids = [raw] -> normalize_ad_id raw = Some n ->
  tasks ad_ids zip_code = [(n, zip_code)].
Proof.
  intros Hl Hn. unfold tasks. rewrite valid_ids_omap, Hl.
  cbn [omap list_omap]. by rewrite Hn.
Qed.

Lemma tasks_single_invalid ad_ids zip_code raw :
  id_list ad_ids = [raw] -> normalize_ad_id raw = None ->
  tasks ad_ids zip_code = [].
Proof.
  intros Hl Hn. unfold tasks. rewrite valid_ids_omap, Hl.
  cbn [omap list_omap]. by rewrite Hn.
Qed.

Lemma batch_single_invalid net finish ad_ids zip_code raw :
  id_list ad_ids = [raw] -> normalize_ad_id raw = None ->
  batch_result net finish ad_ids zip_code = Some [InvalidInput raw].
Proof.
  intros Hl Hn. rewrite batch_result_eq. unfold normalized_ids.
  rewrite Hl. cbn [fmap list_fmap]. by rewrite Hn.
Qed.

Lemma batch_single_valid net finish ad_ids zip_code raw n :
  id_list ad_ids = [raw] -> normalize_ad_id raw = Some n ->
  exists e,
    batch_result net finish ad_ids zip_code = Some [e]
    /\ e <> InvalidInput raw.
Proof.
  intros Hl Hn. rewrite batch_result_eq. unfold normalized_ids.
  rewrite Hl. cbn [fmap list_fmap]. rewrite Hn.
  eexists. split; [reflexivity|].
  destruct (normalize_ad_id_truthy _ _ Hn) as (c & n' & ->).
  unfold classify. cbn [truthy].
  by destruct (default _ _) as [[cost|] error].
Qed.

Lemma normalize_abc123 : normalize_ad_id (u "abc123") = Some (u "MLB123").
Proof.
  unfold normalize_ad_id.
  replace (re_sub_not in_MLB09 (strip (u "abc123"))) with (u "123")
    by (vm_compute; reflexivity).
  replace (startswith (u "MLB") (u "123")) with false by reflexivity.
  cbn [negb].
  change (u "MLB" ++ u "123") with (77 :: 76 :: 66 :: 49 :: [50; 51]).
  rewrite re_match_MLB_ascii_digits; [done|]. by repeat constructor.
Qed.

Lemma normalize_123 : normalize_ad_id (u "123") = Some (u "MLB123").
Proof.
  unfold normalize_ad_id.
  replace (re_sub_not in_MLB09 (strip (u "123"))) with (u "123")
    by (vm_compute; reflexivity).
  replace (startswith (u "MLB") (u "123")) with false by reflexivity.
  cbn [negb].
  change (u "MLB" ++ u "123") with (77 :: 76 :: 66 :: 49 :: [50; 51]).
  rewrite re_match_MLB_ascii_digits; [done|]. by repeat constructor.
Qed.

Lemma normalize_BLM123 : normalize_ad_id (u "BLM123") = None.
Proof.
  unfold normalize_ad_id.
  replace (re_sub_not in_MLB09 (strip (u "BLM123"))) with (u "BLM123")
    by (vm_compute; reflexivity).
  replace (startswith (u "MLB") (u "BLM123")) with false by reflexivity.
  cbn [negb].
  change (u "MLB" ++ u "BLM123")
    with (77 :: 76 :: 66 :: 66 :: u "LM123").
  by rewrite re_match_MLB_letter.
Qed.

(** C3, as the code has it. The lowercase letters of "abc123" are
    dropped before the prefix is added, so it normalises to "MLB123",
    passes the final check and is fetched, exactly like "123". A token
    whose letters survive the clean-up, such as "BLM123", becomes
    "MLBBLM123", fails the check, and gets the invalid-input entry with
    no fetch. *)
Theorem abc123_is_fetched net finish zip_code :
  normalize_ad_id (u "abc123") = Some (u "MLB123")
  /\ tasks (u "abc123") zip_code = [(u "MLB123", zip_code)]
  /\ (exists e,
         batch_result net finish (u "abc123") zip_code = Some [e]
         /\ e <> InvalidInput (u "abc123"))
  /\ normalize_ad_id (u "123") = Some (u "MLB123")
  /\ tasks (u "123") zip_code = [(u "MLB123", zip_code)]
  /\ normalize_ad_id (u "BLM123") = None
  /\ tasks (u "BLM123") zip_code = []
  /\ batch_result net finish (u "BLM123") zip_code
     = Some [InvalidInput (u "BLM123")].
Proof.
  assert (H1 : id_list (u "abc123") = [u "abc123"])
    by (vm_compute; reflexivity).
  assert (H2 : id_list (u "123") = [u "123"])
    by (vm_compute; reflexivity).
  assert (H3 : id_list (u "BLM123") = [u "BLM123"])
    by (vm_compute; reflexivity).
  split_and!.
  - apply normalize_abc123.
  - apply (tasks_single_valid _ _ _ _ H1 normalize_abc123).
  - apply (batch_single_valid _ _ _ _ _ _ H1 normalize_abc123).
  - apply normalize_123.
  - apply (tasks_single_valid _ _ _ _ H2 normalize_123).
  - apply normalize_BLM123.
  - apply (tasks_single_invalid _ _ _ H3 normalize_BLM123).
  - apply (batch_single_invalid _ _ _ _ _ H3 normalize_BLM123).
Qed.

(** C5. The fetcher returns for every way the request can end: either
    the cost read from a parsed body, or a non-empty message and no
    cost; whenever the request or the reading of the body raises, it is
    the latter. Hence every task of a batch yields one outcome, and the
    batch itself always completes. *)
Theorem fetch_shipping_cost_total :
  (forall session ad_id zip_code,
      (exists cost data,
          fetch_shipping_cost session ad_id zip_code
          = (ad_id, Some cost, None)
          /\ session (request_url ad_id zip_code) = Ok data
          /\ read_cost ad_id data = Ok (ad_id, Some cost, None))
      \/ (exists msg,
            fetch_shipping_cost session ad_id zip_code
            = (ad_id, None, Some msg)
            /\ msg <> []))
  /\ (forall session ad_id zip_code error,
         (session (request_url ad_id zip_code) = Raise error
          \/ exists data,
              session (request_url ad_id zip_code) = Ok data
              /\ read_cost ad_id data = Raise error) ->
         fetch_shipping_cost session ad_id zip_code = handle ad_id error
         /\ exists msg,
             handle ad_id error = (ad_id, None, Some msg) /\ msg <> [])
  /\ (forall net ts, length (run_tasks net ts) = length ts)
  /\ (forall net finish ad_ids zip_code,
         is_Some (batch_result net finish ad_ids zip_code)
         /\ is_Some (process_ad_ids net finish ad_ids zip_code)).
Proof.
  split_and!.
  - intros session ad_id zip_code. unfold fetch_shipping_cost.
    destruct (session _) as [data|e]; cbn [res_bind].
    + destruct (read_cost ad_id data) as [r|e] eqn:Hr.
      * apply read_cost_Ok in Hr as Hr'.
        destruct Hr' as [[c ->]| ->]; [left|right]; eauto 10.
      * right. apply handle_failure.
    + right. apply handle_failure.
  - intros session ad_id zip_code error H. split.
    + unfold fetch_shipping_cost.
      destruct H as [->|(data & -> & Hr)]; cbn [res_bind]; [done|].
      by rewrite Hr.
    + apply handle_failure.
  - apply length_run_tasks.
  - intros net finish ad_ids zip_code. unfold process_ad_ids.
    rewrite batch_result_eq. split; by eexists.
Qed.

End Fetched.

(** ** Concrete runs *)

Section Runs.
#[local] Existing Instance whole_runtime.

Lemma normalize_ad_id_idempotent_witness :
  normalize_ad_id (u "MLB123") = Some (u "MLB123").
Proof.
  apply (normalize_ad_id_idempotent (u " mlb-123 ")).
  vm_compute. reflexivity.
Defined.

Lemma normalize_zip_code_canonical_witness :
  length (u "01001000") = 8%nat
  /\ Forall (fun c => ascii_digit c = true) (u "01001000").
Proof.
  apply (proj1 normalize_zip_code_canonical
               (u " 01.001-000 ")).
  vm_compute. reflexivity.
Defined.

(** C1 as stated fails: three options, and yet no success, once
    because the third option has no [list_cost] ([KeyError], reported by
    the last [except] clause) and once because [float()] rejects the
    field ([ValueError], reported by the clause before it). *)
Lemma fetch_options_array_unreadable_cost :
  fetch_shipping_cost
    (fun _ => Ok (JObj {[ u "options" := JArr [JObj ∅; JObj ∅; JObj ∅] ]}))
    (u "MLB1") sample_zip
  = (u "MLB1", None,
     Some (u "Unexpected error: " ++ exn_str (Exn KeyError 0)
             ++ u ". Please contact the developer with this error message."))
  /\ fetch_shipping_cost
       (fun _ => Ok (JObj {[ u "options" :=
          JArr [JObj ∅; JObj ∅;
                JObj {[ u "list_cost" := JStr (u "free") ]}] ]}))
       (u "MLB1") sample_zip
     = (u "MLB1", None,
        Some (u "Invalid response: " ++ exn_str (Exn ValueError 0)
                ++ u ". The API returned unexpected data. Try again or contact the developer.")).
Proof. split; vm_compute; reflexivity. Qed.

Lemma fetch_options_array_witness :
  fetch_shipping_cost
    (fun _ => Ok (JObj {[ u "options" :=
       JArr [JNull; JNull; JObj {[ u "list_cost" := JInt 25 ]}] ]}))
    (u "MLB1") sample_zip
  = (u "MLB1", Some 25%Z, None).
Proof.
  destruct (fetch_options_array
              (fun _ => Ok (JObj {[ u "options" :=
                 JArr [JNull; JNull; JObj {[ u "list_cost" := JInt 25 ]}] ]}))
              (u "MLB1") sample_zip
              {[ u "options" :=
                 JArr [JNull; JNull; JObj {[ u "list_cost" := JInt 25 ]}] ]}
              [JNull; JNull; JObj {[ u "list_cost" := JInt 25 ]}])
    as [_ H]; [reflexivity|vm_compute; reflexivity|].
  destruct H as [H _]; [simpl; lia|].
  apply H. exists {[ u "list_cost" := JInt 25 ]}, (JInt 25).
  split_and!; vm_compute; reflexivity.
Defined.

Lemma fetch_missing_options_witness :
  fetch_shipping_cost
    (fun _ => Ok (JObj {[ u "error" := JStr (u "none") ]}))
    (u "MLB1") sample_zip
  = (u "MLB1", None, Some (u "No shipping options available")).
Proof.
  apply (fetch_missing_options _ _ _ {[ u "error" := JStr (u "none") ]});
    vm_compute; reflexivity.
Defined.



Lemma fetch_shipping_cost_total_witness :
  fetch_shipping_cost
    (fun _ => Raise (Exn JSONDecodeError 0)) (u "MLB1") sample_zip
  = handle (u "MLB1") (Exn JSONDecodeError 0).
Proof.
  destruct fetch_shipping_cost_total as (_ & H & _).
  apply (H (fun _ => Raise (Exn JSONDecodeError 0)) (u "MLB1") sample_zip
           (Exn JSONDecodeError 0)).
  left. reflexivity.
Defined.

Lemma batch_result_order_witness :
  exists e1 e2,
    batch_result net404 (fun i => 9 - i)%nat (u "MLB1,MLB1,MLB2") sample_zip
    = Some [e1; e2]
    /\ entry_raw e1 = u "MLB1" /\ entry_norm e1 = Some (u "MLB1")
    /\ entry_raw e2 = u "MLB2" /\ entry_norm e2 = Some (u "MLB2").
Proof.
  apply (proj2 batch_result_order net404 (fun i => 9 - i)%nat sample_zip).
Defined.

(** C3 as stated fails: "abc123" is normalised, requested, and
    reported as a failed fetch, not as an invalid id. *)
Lemma abc123_normalizes :
  normalize_ad_id (u "abc123") = Some (u "MLB123")
  /\ requests (u "abc123") sample_zip
     = [request_url (u "MLB123") sample_zip]
  /\ batch_result net404 (fun i => i) (u "abc123") sample_zip
     = Some [Failed (u "abc123") (u "MLB123")
               (Some (u "Item not found (404). Verify the ad ID and try again."))].
Proof. split_and!; vm_compute; reflexivity. Qed.

(** C6 as stated fails: "MLB1" and "1" are distinct raw tokens with the
    same canonical identifier, and both are fetched. *)
Lemma same_canonical_fetched_twice :
  tasks (u "MLB1,1") sample_zip
  = [(u "MLB1", sample_zip); (u "MLB1", sample_zip)]
  /\ ~ NoDup (tasks (u "MLB1,1") sample_zip).*1.
Proof.
  assert (H : tasks (u "MLB1,1") sample_zip
              = [(u "MLB1", sample_zip); (u "MLB1", sample_zip)])
    by (vm_compute; reflexivity).
  split; [exact H|]. rewrite H. cbn.
  intros Hnd. apply NoDup_cons in Hnd as [Hnin _].
  apply Hnin. by left.
Qed.

Lemma fetch_once_per_valid_token_witness :
  NoDup (tasks (u "MLB1,MLB2") sample_zip).*1.
Proof.
  apply (fetch_once_per_valid_token net404 (u "MLB1,MLB2") sample_zip).
  replace (id_list (u "MLB1,MLB2")) with [u "MLB1"; u "MLB2"]
    by (vm_compute; reflexivity).
  intros r1 r2 n H1 H2.
  apply elem_of_cons in H1 as [->|H1];
    [|apply list_elem_of_singleton in H1 as ->];
    (apply elem_of_cons in H2 as [->|H2];
     [|apply list_elem_of_singleton in H2 as ->]);
    vm_compute; congruence.
Defined.

Lemma invalid_token_not_fetched_witness :
  exists entries,
    batch_result net404 (fun i => i) (u "MLB1,BLM1") sample_zip = Some entries
    /\ InvalidInput (u "BLM1") ∈ entries.
Proof.
  apply (invalid_token_not_fetched
           net404 (fun i => i) (u "MLB1,BLM1") sample_zip (u "BLM1")).
  - apply (bool_decide_unpack _). vm_compute. exact I.
  - vm_compute. reflexivity.
Defined.

End Runs.

(** * Further properties *)

(** ** More on strings *)

Lemma span_spec (p : N -> bool) (s a b : list N) :
  span p s = (a, b) -> s = a ++ b /\ Forall (fun c => p c = true) a.
Proof.
  revert a b. induction s as [|c s IH]; intros a b; cbn [span].
  - intros [= <- <-]. by split.
  - destruct (p c) eqn:Hc.
    + destruct (span p s) as [a' b'] eqn:Hs. intros [= <- <-].
      destruct (IH a' b' eq_refl) as [-> Ha]. split; [done|by constructor].
    + intros [= <- <-]. by split.
Qed.

Lemma startswith_inv p s :
  startswith p s = true -> exists r, s = p ++ r.
Proof.
  revert s. induction p as [|a p IH]; intros s; [by exists s|].
  destruct s as [|b s]; [done|]. cbn [startswith].
  intros [->%N.eqb_eq [r ->]%IH]%andb_true_iff. by exists r.
Qed.

Lemma filter_lstrip (P : N -> Prop) `{!forall c, Decision (P c)} s :
  (forall c, P c -> is_space c = false) ->
  filter P (lstrip s) = filter P s.
Proof.
  intros HP. induction s as [|c s IH]; [done|]. cbn [lstrip].
  destruct (is_space c) eqn:Hc; [|done].
  rewrite IH, filter_cons_False; [done|].
  intros Hc'%HP. congruence.
Qed.

(** Stripping removes whitespace only, which a class without whitespace
    would have removed anyway. *)
Lemma re_sub_not_strip cls s :
  (forall c, cls c = true -> is_space c = false) ->
  re_sub_not cls (strip s) = re_sub_not cls s.
Proof.
  intros Hcls. unfold re_sub_not, strip.
  assert (HP : forall c, Is_true (cls c) -> is_space c = false)
    by (intros c Hc; by apply Hcls, Is_true_eq_true).
  rewrite filter_reverse, filter_lstrip by done.
  rewrite filter_reverse, reverse_involutive.
  by apply filter_lstrip.
Qed.

Lemma ascii_digit_not_space c : ascii_digit c = true -> is_space c = false.
Proof. intros H. by apply in_MLB09_not_space, ascii_digit_in_MLB09. Qed.

Lemma elem_of_re_sub_not cls s c :
  c ∈ re_sub_not cls s <-> cls c = true /\ c ∈ s.
Proof.
  unfold re_sub_not. rewrite list_elem_of_filter.
  split; intros [H1 H2]; split; try done.
  - by apply Is_true_eq_true.
  - by apply Is_true_eq_left.
Qed.

(** ** More on the normalisers *)

Section NormalizerMore.
Context `{RT : PyRuntime}.

(** [normalize_ad_id] looks at the characters of [MLB0-9] only. *)
Lemma normalize_ad_id_cleaned raw :
  normalize_ad_id raw =
    let cleaned_id := re_sub_not in_MLB09 raw in
    let cleaned_id :=
      if negb (startswith (u "MLB") cleaned_id)
      then u "MLB" ++ cleaned_id else cleaned_id in
    if re_match_MLB_digits cleaned_id then Some cleaned_id else None.
Proof.
  unfold normalize_ad_id.
  by rewrite re_sub_not_strip by apply in_MLB09_not_space.
Qed.

(** What passes the final check, among strings over [MLB0-9]. *)
Lemma re_match_MLB_digits_inv y :
  Forall (fun c => in_MLB09 c = true) y ->
  startswith (u "MLB") y = true ->
  re_match_MLB_digits y = true ->
  exists c ds,
    y = 77 :: 76 :: 66 :: c :: ds
    /\ Forall (fun c => ascii_digit c = true) (c :: ds).
Proof.
  intros Hcls [rest ->]%startswith_inv Hm.
  change (u "MLB" ++ rest) with (77 :: 76 :: 66 :: rest) in *.
  unfold re_match_MLB_digits in Hm.
  destruct (span re_digit rest) as [a tl] eqn:Hs.
  apply span_spec in Hs as [-> Ha].
  do 3 apply Forall_cons_1 in Hcls as [_ Hcls].
  apply Forall_app in Hcls as [Hca Hctl].
  assert (Hda : Forall (fun c => ascii_digit c = true) a).
  { apply Forall_forall. intros c Hc.
    eapply Forall_forall in Ha; [|exact Hc].
    eapply Forall_forall in Hca; [|exact Hc]. cbv beta in *.
    rewrite re_digit_ascii in Ha; [done|].
    apply in_MLB09_range in Hca. lia. }
  destruct a as [|c ds]; [done|].
  destruct tl as [|t [|t' tl]]; [| |done].
  - exists c, ds. by rewrite app_nil_r.
  - apply N.eqb_eq in Hm. subst t.
    apply Forall_cons_1 in Hctl as [Hlf _]. done.
Qed.

(** X1. Whatever [normalize_ad_id] returns is the prefix MLB followed by
    one or more of the digits 0-9, and nothing else. *)
Theorem normalize_ad_id_shape (raw y : list N) :
  normalize_ad_id raw = Some y ->
  exists c ds,
    y = u "MLB" ++ c :: ds
    /\ Forall (fun c => ascii_digit c = true) (c :: ds).
Proof.
  intros (Hcls & Hs & Hm)%normalize_ad_id_Some.
  by apply re_match_MLB_digits_inv.
Qed.

(** X2. The identifiers [normalize_ad_id] returns unchanged are exactly
    the strings made of MLB and one or more digits 0-9. *)
Theorem normalize_ad_id_fixed_points (y : list N) :
  normalize_ad_id y = Some y
  <-> exists c ds,
      y = u "MLB" ++ c :: ds
      /\ Forall (fun c => ascii_digit c = true) (c :: ds).
Proof.
  split.
  - intros (Hcls & Hs & Hm)%normalize_ad_id_Some.
    by apply re_match_MLB_digits_inv.
  - intros (c & ds & -> & Hd). by apply normalize_ad_id_canonical.
Qed.

(** X3. Two inputs with the same characters of [MLB0-9], in the same
    order, normalise alike: every other character is noise. *)
Theorem normalize_ad_id_noise (a b : list N) :
  re_sub_not in_MLB09 a = re_sub_not in_MLB09 b ->
  normalize_ad_id a = normalize_ad_id b.
Proof. intros H. by rewrite !normalize_ad_id_cleaned, H. Qed.

Lemma startswith_MLB_digit c ds :
  ascii_digit c = true -> startswith (u "MLB") (c :: ds) = false.
Proof.
  intros Hc.
  change (startswith (u "MLB") (c :: ds))
    with ((77 =? c) && startswith [76; 66] ds).
  destruct (N.eqb_spec 77 c) as [<-|]; done.
Qed.

(** X4. [normalize_ad_id] succeeds exactly when, noise removed, the
    input is a non-empty run of digits, with or without the prefix MLB
    before it; the result is MLB followed by those digits. *)
Theorem normalize_ad_id_iff (raw y : list N) :
  normalize_ad_id raw = Some y
  <-> exists c ds,
      Forall (fun c => ascii_digit c = true) (c :: ds)
      /\ y = u "MLB" ++ c :: ds
      /\ (re_sub_not in_MLB09 raw = c :: ds
          \/ re_sub_not in_MLB09 raw = u "MLB" ++ c :: ds).
Proof.
  split.
  - intros H.
    destruct (normalize_ad_id_Some _ _ H) as (Hcls & Hs & Hm).
    destruct (re_match_MLB_digits_inv _ Hcls Hs Hm) as (c & ds & -> & Hd).
    exists c, ds. split; [done|]. split; [done|].
    rewrite normalize_ad_id_cleaned in H. cbv zeta in H.
    destruct (startswith (u "MLB") (re_sub_not in_MLB09 raw));
      cbn [negb] in H;
      match type of H with
      | context [if ?b then _ else _] => destruct b
      end; try done;
      apply (inj Some) in H.
    + by right.
    + left. by apply (inj (app (u "MLB"))) in H.
  - intros (c & ds & Hd & -> & Hc).
    rewrite normalize_ad_id_cleaned. cbv zeta.
    destruct Hc as [-> | ->].
    + rewrite startswith_MLB_digit by by apply Forall_cons_1 in Hd as [? _].
      cbn [negb].
      change (u "MLB" ++ c :: ds) with (77 :: 76 :: 66 :: c :: ds).
      by rewrite re_match_MLB_ascii_digits.
    + rewrite startswith_app. cbn [negb].
      change (u "MLB" ++ c :: ds) with (77 :: 76 :: 66 :: c :: ds).
      by rewrite re_match_MLB_ascii_digits.
Qed.

(** X5. An input without any digit 0-9 (the empty string, blanks,
    letters only, the bare prefix) is rejected. *)
Theorem normalize_ad_id_no_digit (raw : list N) :
  Forall (fun c => ascii_digit c = false) raw ->
  normalize_ad_id raw = None.
Proof.
  intros Hnd. destruct (normalize_ad_id raw) as [y|] eqn:H; [|done].
  destruct (normalize_ad_id_Some _ _ H) as (Hcls & Hs & Hm).
  destruct (re_match_MLB_digits_inv _ Hcls Hs Hm) as (c & ds & -> & Hd).
  apply Forall_cons_1 in Hd as [Hc _].
  rewrite normalize_ad_id_cleaned in H. cbv zeta in H.
  assert (Hin : c ∈ re_sub_not in_MLB09 raw).
  { destruct (startswith (u "MLB") (re_sub_not in_MLB09 raw));
      cbn [negb] in H;
      match type of H with
      | context [if ?b then _ else _] => destruct b
      end; try done;
      apply (inj Some) in H.
    - rewrite H. do 3 right. by left.
    - apply (inj (app (u "MLB"))) in H. rewrite H. by left. }
  apply elem_of_re_sub_not in Hin as [_ Hin].
  eapply Forall_forall in Hnd; [|exact Hin]. cbv beta in Hnd. congruence.
Qed.

(** [normalize_zip_code] looks at the digits only; the [isdigit] test of
    line 18 cannot fail once the length is 8. *)
Lemma normalize_zip_code_cleaned raw :
  normalize_zip_code raw =
    if (length (re_sub_not ascii_digit raw) =? 8)%nat
    then Some (re_sub_not ascii_digit raw) else None.
Proof.
  unfold normalize_zip_code.
  rewrite re_sub_not_strip by apply ascii_digit_not_space.
  destruct (length _ =? 8)%nat eqn:Hlen; [|done].
  rewrite isdigit_ascii; [done| |apply re_sub_not_class].
  intros Hnil. by rewrite Hnil in Hlen.
Qed.

(** X6. [normalize_zip_code] returns exactly the digits 0-9 of its
    input, in order, when there are 8 of them, and nothing otherwise,
    whatever else the input holds. *)
Theorem normalize_zip_code_iff (raw z : list N) :
  normalize_zip_code raw = Some z
  <-> z = re_sub_not ascii_digit raw /\ length z = 8%nat.
Proof.
  rewrite normalize_zip_code_cleaned.
  destruct (Nat.eqb_spec (length (re_sub_not ascii_digit raw)) 8)
    as [Hlen|Hlen].
  - split; [by intros [= <-]|by intros [-> _]].
  - split; [done|]. by intros [-> ?].
Qed.

(** X7. [normalize_zip_code] is idempotent on its successes. *)
Theorem normalize_zip_code_idempotent (raw z : list N) :
  normalize_zip_code raw = Some z -> normalize_zip_code z = Some z.
Proof.
  rewrite !normalize_zip_code_cleaned.
  destruct (Nat.eqb_spec (length (re_sub_not ascii_digit raw)) 8)
    as [Hlen|Hlen]; [|done].
  intros [= <-].
  rewrite (re_sub_not_fixed ascii_digit (re_sub_not ascii_digit raw))
    by apply re_sub_not_class.
  by rewrite Hlen.
Qed.

End NormalizerMore.

(** ** More on the fetcher *)

Section FetcherMore.
Context `{RT : PyRuntime}.

(** The only way through lines 29-31 that ends in a cost. *)
Lemma read_cost_success ad_id data id c e :
  read_cost ad_id data = Ok (id, Some c, e) ->
  exists fields opts third v,
    data = JObj fields
    /\ fields !! u "options" = Some (JArr opts)
    /\ opts !! 2%nat = Some (JObj third)
    /\ third !! u "list_cost" = Some v
    /\ py_float v = Ok c.
Proof.
  unfold read_cost, py_contains, py_getitem, py_len, py_index, res_bind,
    raise.
  intros H.
  repeat (case_match; try done); simplify_eq;
    repeat match goal with
           | H : bool_decide _ = true |- _ => apply bool_decide_eq_true in H
           end;
    eauto 10.
Qed.

(** X8. The fetcher returns a cost in one situation only: the request
    yields a parsed body that is an object whose [options] entry is an
    array with an element at index 2, that element is an object, and
    [float()] converts its [list_cost] field; the cost is that value. *)
Theorem fetch_success_iff session (ad_id zip_code : list N) c :
  fetch_shipping_cost session ad_id zip_code = (ad_id, Some c, None)
  <-> exists fields opts third v,
      session (request_url ad_id zip_code) = Ok (JObj fields)
      /\ fields !! u "options" = Some (JArr opts)
      /\ opts !! 2%nat = Some (JObj third)
      /\ third !! u "list_cost" = Some v
      /\ py_float v = Ok c.
Proof.
  unfold fetch_shipping_cost. split.
  - destruct (session _) as [data|e]; cbn [res_bind].
    + destruct (read_cost ad_id data) as [[[id c'] e']|e] eqn:Hr.
      * intros [= -> -> ->].
        apply read_cost_success in Hr
          as (fields & opts & third & v & -> & ?). eauto 10.
      * destruct (handle_failure ad_id e) as (msg & -> & _). done.
    + destruct (handle_failure ad_id e) as (msg & -> & _). done.
  - intros (fields & opts & third & v & -> & Ho & H2 & Hv & Hf).
    cbn [res_bind]. rewrite (read_cost_options _ _ _ Ho).
    apply lookup_lt_Some in H2 as Hlt.
    replace (2 <? length opts)%nat with true
      by (symmetry; by apply Nat.ltb_lt).
    unfold py_index, py_getitem, res_bind. by rewrite H2, Hv, Hf.
Qed.

(** X9. When the request raises, the first [except] clause whose class
    the exception belongs to decides the message: a connection error
    gets the could-not-connect text whatever else it is; another client
    error that is no response error gets the client-error text, even if
    it is a [ValueError] as well; a [ValueError] from outside the client
    gets the invalid-response text; anything else the unexpected-error
    text. *)
Theorem fetch_error_category session (ad_id zip_code : list N) error :
  session (request_url ad_id zip_code) = Raise error ->
  exists msg,
    fetch_shipping_cost session ad_id zip_code = (ad_id, None, Some msg)
    /\ (isinstance error ClientConnectionError = true ->
        msg = u "Could not connect to the server. Please check your internet connection and try again.")
    /\ (isinstance error ClientError = true ->
        isinstance error ClientConnectionError = false ->
        isinstance error ClientResponseError = false ->
        msg = u "Client error: " ++ exn_str error
                ++ u ". Check your connection or contact the developer.")
    /\ (isinstance error ValueError = true ->
        isinstance error ClientError = false ->
        msg = u "Invalid response: " ++ exn_str error
                ++ u ". The API returned unexpected data. Try again or contact the developer.")
    /\ (isinstance error ValueError = false ->
        isinstance error ClientError = false ->
        msg = u "Unexpected error: " ++ exn_str error
                ++ u ". Please contact the developer with this error message.").
Proof.
  intros Hs. unfold fetch_shipping_cost. rewrite Hs. cbn [res_bind].
  assert (Hsub1 : isinstance error ClientConnectionError = true ->
                  isinstance error ClientError = true)
    by (destruct error as [[] ?]; by vm_compute).
  assert (Hsub2 : isinstance error ClientResponseError = true ->
                  isinstance error ClientError = true)
    by (destruct error as [[] ?]; by vm_compute).
  unfold handle.
  destruct (isinstance error ClientConnectionError) eqn:Hc.
  { eexists. split; [reflexivity|].
    split_and!; try done; intros; specialize (Hsub1 eq_refl); congruence. }
  destruct (isinstance error ClientResponseError) eqn:Hr.
  { repeat match goal with
           | |- context [if ?b then _ else _] => destruct b
           end; (eexists; split; [reflexivity|]);
      (split_and!; try done; intros; specialize (Hsub2 eq_refl);
       congruence). }
  destruct (isinstance error ClientError) eqn:He.
  { eexists. split; [reflexivity|]. by split_and!. }
  destruct (isinstance error ValueError) eqn:Hv.
  { eexists. split; [reflexivity|]. by split_and!. }
  eexists. split; [reflexivity|]. by split_and!.
Qed.

(** X10. With more than 2 options, a third option that is an object
    without [list_cost] is reported by the last clause (the [KeyError]
    is no [ValueError]), and a [list_cost] string that [float()] rejects
    by the invalid-response clause. *)
Theorem fetch_unreadable_cost session (ad_id zip_code : list N)
    fields opts third :
  session (request_url ad_id zip_code) = Ok (JObj fields) ->
  fields !! u "options" = Some (JArr opts) ->
  opts !! 2%nat = Some (JObj third) ->
  (third !! u "list_cost" = None ->
   fetch_shipping_cost session ad_id zip_code
   = (ad_id, None,
      Some (u "Unexpected error: " ++ exn_str (Exn KeyError 0)
              ++ u ". Please contact the developer with this error message.")))
  /\ (forall s,
         third !! u "list_cost" = Some (JStr s) ->
         float_of_str s = None ->
         fetch_shipping_cost session ad_id zip_code
         = (ad_id, None,
            Some (u "Invalid response: " ++ exn_str (Exn ValueError 0)
                    ++ u ". The API returned unexpected data. Try again or contact the developer."))).
Proof.
  intros Hs Ho H2. unfold fetch_shipping_cost. rewrite Hs.
  cbn [res_bind]. rewrite (read_cost_options _ _ _ Ho).
  apply lookup_lt_Some in H2 as Hlt.
  replace (2 <? length opts)%nat with true
    by (symmetry; by apply Nat.ltb_lt).
  unfold py_index, py_getitem, py_float, res_bind. rewrite H2. split.
  - by intros ->.
  - intros s -> ->. done.
Qed.

(** X11. A parsed body that is no object never gives a cost. An array
    that does not hold the string "options" and a string that does not
    contain it give "No shipping options available"; every other body
    that is no object (an array holding that string, a string containing
    it, null, a number, a boolean) makes line 29 raise [TypeError], which
    the last clause reports. *)
Theorem fetch_non_object_body session (ad_id zip_code : list N) data :
  session (request_url ad_id zip_code) = Ok data ->
  (forall fields, data <> JObj fields) ->
  fetch_shipping_cost session ad_id zip_code
  = (ad_id, None,
     Some (match py_contains (u "options") data with
           | Ok false => u "No shipping options available"
           | _ => u "Unexpected error: " ++ exn_str (Exn TypeError 0)
                    ++ u ". Please contact the developer with this error message."
           end)).
Proof.
  intros Hs Hno. unfold fetch_shipping_cost. rewrite Hs. cbn [res_bind].
  unfold read_cost.
  destruct data as [| | | |s|items|fields]; try done.
  - cbn [py_contains res_bind]. by destruct (substring _ _).
  - cbn [py_contains res_bind]. by destruct (existsb _ _).
  - by destruct (Hno fields).
Qed.

(** X12. Among the options only the one at index 2 counts: two bodies
    whose [options] arrays both have more than 2 elements and agree at
    index 2 give the same outcome, whatever their other options and
    other keys. *)
Theorem fetch_third_option_only session1 session2 (ad_id zip_code : list N)
    fields1 fields2 opts1 opts2 :
  session1 (request_url ad_id zip_code) = Ok (JObj fields1) ->
  session2 (request_url ad_id zip_code) = Ok (JObj fields2) ->
  fields1 !! u "options" = Some (JArr opts1) ->
  fields2 !! u "options" = Some (JArr opts2) ->
  (2 < length opts1)%nat ->
  (2 < length opts2)%nat ->
  opts1 !! 2%nat = opts2 !! 2%nat ->
  fetch_shipping_cost session1 ad_id zip_code
  = fetch_shipping_cost session2 ad_id zip_code.
Proof.
  intros Hs1 Hs2 Ho1 Ho2 Hl1 Hl2 H2. unfold fetch_shipping_cost.
  rewrite Hs1, Hs2. cbn [res_bind].
  rewrite (read_cost_options _ _ _ Ho1), (read_cost_options _ _ _ Ho2).
  replace (2 <? length opts1)%nat with true
    by (symmetry; by apply Nat.ltb_lt).
  replace (2 <? length opts2)%nat with true
    by (symmetry; by apply Nat.ltb_lt).
  unfold py_index. by rewrite H2.
Qed.

End FetcherMore.

(** ** More on splitting and stripping *)

Lemma lstrip_split s :
  exists ws, s = ws ++ lstrip s /\ Forall (fun c => is_space c = true) ws.
Proof.
  induction s as [|c s (ws & Hs & Hws)]; [by exists []|]. cbn [lstrip].
  destruct (is_space c) eqn:Hc.
  - exists (c :: ws). split; [by rewrite Hs at 1|by constructor].
  - by exists [].
Qed.

Lemma lstrip_head s c t : lstrip s = c :: t -> is_space c = false.
Proof.
  induction s as [|d s IH]; [done|]. cbn [lstrip].
  destruct (is_space d) eqn:Hd; [done|]. by intros [= <- _].
Qed.

Lemma lstrip_nil s : lstrip s = [] <-> Forall (fun c => is_space c = true) s.
Proof.
  induction s as [|c s IH]; [done|]. cbn [lstrip].
  destruct (is_space c) eqn:Hc.
  - rewrite IH. split; [by constructor|by intros [_ ?]%Forall_cons_1].
  - split; [done|]. intros [? _]%Forall_cons_1. congruence.
Qed.

(** The shape of [s.strip()]: blanks, the result, blanks. *)
Lemma strip_split s :
  exists l r,
    s = l ++ strip s ++ r
    /\ Forall (fun c => is_space c = true) l
    /\ Forall (fun c => is_space c = true) r.
Proof.
  destruct (lstrip_split s) as (l & Hs & Hl).
  destruct (lstrip_split (reverse (lstrip s))) as (r & Hr & Hwr).
  exists l, (reverse r). split_and!; [|done|by apply Forall_reverse].
  unfold strip. rewrite <- reverse_app, <- Hr, reverse_involutive. done.
Qed.

Lemma strip_nil s : strip s = [] <-> Forall (fun c => is_space c = true) s.
Proof.
  split.
  - intros H. destruct (strip_split s) as (l & r & Hs & Hl & Hr).
    rewrite H in Hs. rewrite Hs. by apply Forall_app.
  - intros H. unfold strip.
    rewrite (proj2 (lstrip_nil s) H). done.
Qed.

(** A non-empty [s.strip()] neither starts nor ends with a blank. *)
Lemma strip_ends s :
  strip s <> [] ->
  (exists c, head (strip s) = Some c /\ is_space c = false)
  /\ (exists c, last (strip s) = Some c /\ is_space c = false).
Proof.
  intros Hne. unfold strip in *.
  destruct (lstrip (reverse (lstrip s))) as [|c t] eqn:Ht; [done|].
  apply lstrip_head in Ht as Hc. split.
  - destruct (lstrip_split (reverse (lstrip s))) as (ws & Hs & Hws).
    rewrite Ht in Hs.
    assert (Hl : lstrip s = reverse (c :: t) ++ reverse ws).
    { by rewrite <- reverse_app, <- Hs, reverse_involutive. }
    destruct (reverse (c :: t)) as [|d t'] eqn:Hrev.
    { apply (f_equal length) in Hrev. by rewrite length_reverse in Hrev. }
    exists d. split; [done|]. by apply lstrip_head in Hl.
  - exists c. split; [|done]. by rewrite reverse_cons, last_snoc.
Qed.

Lemma re_split_cons_sep c s :
  is_sep c = true -> re_split (c :: s) = [] :: re_split s.
Proof. intros H. cbn [re_split]. by rewrite H. Qed.

Lemma re_split_not_nil s : re_split s <> [].
Proof.
  induction s as [|c s IH]; [done|]. cbn [re_split].
  destruct (is_sep c); [done|]. by destruct (re_split s).
Qed.

(** Every character of a piece is a character of the text and no
    separator. *)
Lemma re_split_pieces s t c :
  t ∈ re_split s -> c ∈ t -> c ∈ s /\ is_sep c = false.
Proof.
  revert t. induction s as [|d s IH]; intros t; cbn [re_split].
  - intros ->%list_elem_of_singleton. by intros ?%elem_of_nil.
  - destruct (is_sep d) eqn:Hd.
    + intros [->|Ht]%elem_of_cons Hc; [by apply elem_of_nil in Hc|].
      destruct (IH t Ht Hc). split; [by right|done].
    + destruct (re_split s) as [|t0 ts] eqn:Hs.
      { by destruct (re_split_not_nil s). }
      intros [->|Ht]%elem_of_cons Hc.
      * apply elem_of_cons in Hc as [->|Hc]; [split; [by left|done]|].
        destruct (IH t0 ltac:(by left) Hc). split; [by right|done].
      * destruct (IH t ltac:(by right) Hc). split; [by right|done].
Qed.

(** Every character of the text that is no separator is in a piece. *)
Lemma re_split_covers s c :
  c ∈ s -> is_sep c = false -> exists t, t ∈ re_split s /\ c ∈ t.
Proof.
  induction s as [|d s IH]; [by intros ?%elem_of_nil|].
  intros Hc Hsep. cbn [re_split].
  destruct (is_sep d) eqn:Hd.
  - apply elem_of_cons in Hc as [->|Hc]; [congruence|].
    destruct (IH Hc Hsep) as (t & Ht & Hct). exists t. split; [by right|done].
  - destruct (re_split s) as [|t0 ts] eqn:Hs.
    { by destruct (re_split_not_nil s). }
    apply elem_of_cons in Hc as [->|Hc].
    + exists (d :: t0). split; by left.
    + destruct (IH Hc Hsep) as (t & Ht & Hct).
      apply elem_of_cons in Ht as [->|Ht].
      * exists (d :: t0). split; [by left|by right].
      * exists t. split; [by right|done].
Qed.

(** Splitting a text at one of its separators. *)
Lemma re_split_app a c b :
  is_sep c = true -> re_split (a ++ c :: b) = re_split a ++ re_split b.
Proof.
  intros Hc. induction a as [|d a IH].
  - cbn [app]. by rewrite re_split_cons_sep.
  - cbn [app re_split]. rewrite IH.
    destruct (is_sep d); [done|].
    destruct (re_split a) as [|t ts] eqn:Ha; [|done].
    by destruct (re_split_not_nil a).
Qed.

Lemma truthy_not_nil (t : list N) : Is_true (truthy t) <-> t <> [].
Proof. by destruct t. Qed.

Lemma elem_of_tokens ad_ids t :
  t ∈ tokens ad_ids
  <-> t <> [] /\ exists piece, piece ∈ re_split ad_ids /\ t = strip piece.
Proof.
  unfold tokens. rewrite list_elem_of_filter, list_elem_of_fmap.
  rewrite truthy_not_nil. split.
  - intros [? (piece & -> & ?)]. eauto.
  - intros [? (piece & ? & ->)]. eauto.
Qed.

Lemma tokens_app a c b :
  is_sep c = true -> tokens (a ++ c :: b) = tokens a ++ tokens b.
Proof.
  intros Hc. unfold tokens.
  by rewrite re_split_app, fmap_app, filter_app.
Qed.

Lemma dict_fromkeys_app (l k : list (list N)) :
  dict_fromkeys (l ++ k)
  = dict_fromkeys l ++ filter (fun x => x ∉ l) (dict_fromkeys k).
Proof.
  induction k as [|x k IH] using rev_ind.
  { by rewrite !app_nil_r. }
  rewrite app_assoc, !dict_fromkeys_snoc, IH.
  case_bool_decide as H1; case_bool_decide as H2.
  - done.
  - rewrite filter_app, filter_cons_False, filter_nil, app_nil_r; [done|].
    intros Hx. apply elem_of_app in H1 as [H1|H1].
    + apply Hx. by apply elem_of_dict_fromkeys.
    + apply H2. by apply list_elem_of_filter in H1 as [_ ?].
  - destruct H1. apply elem_of_app.
    destruct (decide (x ∈ l)) as [Hl|Hl].
    + left. by apply elem_of_dict_fromkeys.
    + right. by apply list_elem_of_filter.
  - rewrite filter_app, filter_cons_True, filter_nil, <- app_assoc; [done|].
    intros Hx. apply H1. apply elem_of_app. left.
    by apply elem_of_dict_fromkeys.
Qed.

(** ** More on the coordinator *)

Lemma filter_none {X} (P : X -> Prop) `{!forall x, Decision (P x)}
    (l : list X) :
  (forall x, x ∈ l -> ~ P x) -> filter P l = [].
Proof.
  intros Hno. apply elem_of_nil_inv.
  intros x [HP Hx]%list_elem_of_filter. by apply (Hno x).
Qed.

Lemma dict_fromkeys_nil (l : list (list N)) : dict_fromkeys l = [] <-> l = [].
Proof.
  split; [|by intros ->]. intros H. apply elem_of_nil_inv. intros x Hx.
  rewrite <- elem_of_dict_fromkeys, H in Hx.
  by apply elem_of_nil in Hx.
Qed.

(** X13. Every token of a batch is non-empty, holds neither a comma nor
    a newline, and neither starts nor ends with whitespace. *)
Theorem id_list_tokens_clean (ad_ids t : list N) :
  t ∈ id_list ad_ids ->
  t <> []
  /\ Forall (fun c => is_sep c = false) t
  /\ (exists c, head t = Some c /\ is_space c = false)
  /\ (exists c, last t = Some c /\ is_space c = false).
Proof.
  unfold id_list. rewrite elem_of_dict_fromkeys. intros Ht.
  apply elem_of_tokens in Ht as (Hne & piece & Hp & ->).
  split; [done|]. split; [|by apply strip_ends].
  apply Forall_forall. intros c Hc.
  destruct (strip_split piece) as (l & r & Hs & _).
  eapply (re_split_pieces ad_ids piece c); [done|].
  rewrite Hs, !elem_of_app. auto.
Qed.

Lemma id_list_nil_iff (ad_ids : list N) :
  id_list ad_ids = []
  <-> Forall (fun c => is_sep c = true \/ is_space c = true) ad_ids.
Proof.
  unfold id_list. rewrite dict_fromkeys_nil. split.
  - intros Hnil. apply Forall_forall. intros c Hc.
    destruct (is_sep c) eqn:Hsep; [by left|right].
    destruct (re_split_covers _ _ Hc Hsep) as (piece & Hp & Hcp).
    assert (Hs : strip piece = []).
    { destruct (decide (strip piece = [])) as [|Hne]; [done|].
      assert (Hin : strip piece ∈ tokens ad_ids)
        by (apply elem_of_tokens; eauto).
      rewrite Hnil in Hin. by apply elem_of_nil in Hin. }
    apply strip_nil in Hs. by eapply Forall_forall in Hs.
  - intros Hall. apply elem_of_nil_inv. intros t Ht.
    apply elem_of_tokens in Ht as (Hne & piece & Hp & ->).
    apply Hne, strip_nil, Forall_forall. intros c Hc.
    destruct (re_split_pieces _ _ _ Hp Hc) as [Hin Hsep].
    eapply Forall_forall in Hall; [|exact Hin].
    destruct Hall; congruence.
Qed.

(** X14. A batch has no token exactly when its text holds nothing but
    commas, newlines and whitespace; it then requests nothing and makes
    no call on the window. *)
Theorem blank_batch `{RT : PyRuntime} net finish (ad_ids zip_code : list N) :
  (id_list ad_ids = []
   <-> Forall (fun c => is_sep c = true \/ is_space c = true) ad_ids)
  /\ (id_list ad_ids = [] ->
      requests ad_ids zip_code = []
      /\ process_ad_ids net finish ad_ids zip_code = Some []).
Proof.
  split; [apply id_list_nil_iff|].
  intros Hnil. split.
  - unfold requests, tasks, valid_ids, normalized_ids. by rewrite Hnil.
  - unfold process_ad_ids, batch_result. by rewrite Hnil.
Qed.

(** X15. Joining two texts with a separator: the tokens of the first come
    first, followed by those tokens of the second that the first does not
    have. *)
Theorem id_list_app (a b : list N) (c : N) :
  is_sep c = true ->
  id_list (a ++ c :: b)
  = id_list a ++ filter (fun t => t ∉ id_list a) (id_list b).
Proof.
  intros Hc. unfold id_list. rewrite tokens_app, dict_fromkeys_app by done.
  f_equal. apply list_filter_iff. intros t.
  by rewrite elem_of_dict_fromkeys.
Qed.

Section CoordinatorMore.
Context `{RT : PyRuntime}.

(** A batch depends on its text through the list of tokens only. *)
Lemma batch_of_id_list net finish a b zip_code :
  id_list a = id_list b ->
  requests a zip_code = requests b zip_code
  /\ batch_result net finish a zip_code = batch_result net finish b zip_code
  /\ process_ad_ids net finish a zip_code
     = process_ad_ids net finish b zip_code.
Proof.
  intros H.
  unfold process_ad_ids, batch_result, requests, tasks, valid_ids,
    normalized_ids.
  by rewrite H.
Qed.

(** X16. Appending tokens the text already has changes nothing: the same
    tokens, the same requests, the same calls on the window. *)
Theorem batch_ignores_repeats net finish (a b : list N) (c : N)
    (zip_code : list N) :
  is_sep c = true ->
  (forall t, t ∈ tokens b -> t ∈ tokens a) ->
  id_list (a ++ c :: b) = id_list a
  /\ requests (a ++ c :: b) zip_code = requests a zip_code
  /\ process_ad_ids net finish (a ++ c :: b) zip_code
     = process_ad_ids net finish a zip_code.
Proof.
  intros Hc Hsub.
  assert (H : id_list (a ++ c :: b) = id_list a).
  { unfold id_list. rewrite tokens_app, dict_fromkeys_app by done.
    rewrite filter_none, app_nil_r; [done|].
    intros t Ht Hnot. rewrite elem_of_dict_fromkeys in Ht.
    by apply Hnot, Hsub. }
  split; [done|].
  by destruct (batch_of_id_list net finish _ _ zip_code H) as (? & _ & ?).
Qed.

Lemma invalid_ids_omap ad_ids :
  invalid_ids ad_ids
  = omap (fun raw_id => match normalize_ad_id raw_id with
                        | Some _ => None
                        | None => Some (raw_id, None)
                        end) (id_list ad_ids).
Proof.
  unfold invalid_ids, normalized_ids.
  induction (id_list ad_ids) as [|raw l IH]; [done|].
  cbn [fmap list_fmap omap list_omap]. rewrite IH.
  destruct (normalize_ad_id raw) as [n|] eqn:Hn; [|done].
  by destruct (normalize_ad_id_truthy _ _ Hn) as (c & n' & ->).
Qed.

(** X17. Lines 57-58 split the tokens in two: each token is in
    [valid_ids] with its canonical identifier when it normalises and in
    [invalid_ids] when it does not, never in both; one request is made
    per element of [valid_ids]. *)
Theorem valid_invalid_partition (ad_ids zip_code : list N) :
  (length (valid_ids ad_ids) + length (invalid_ids ad_ids)
   = length (id_list ad_ids))%nat
  /\ length (requests ad_ids zip_code) = length (valid_ids ad_ids)
  /\ (forall raw n,
         (raw, n) ∈ valid_ids ad_ids
         <-> raw ∈ id_list ad_ids /\ normalize_ad_id raw = Some n)
  /\ (forall raw o,
         (raw, o) ∈ invalid_ids ad_ids
         <-> raw ∈ id_list ad_ids /\ normalize_ad_id raw = None /\ o = None).
Proof.
  split_and!.
  - rewrite valid_ids_omap, invalid_ids_omap.
    induction (id_list ad_ids) as [|raw l IH]; [done|].
    cbn [omap list_omap length].
    destruct (normalize_ad_id raw); cbn [fmap option_fmap option_map length];
      lia.
  - unfold requests, tasks. by rewrite !length_fmap.
  - apply elem_of_valid_ids.
  - intros raw o. rewrite invalid_ids_omap, list_elem_of_omap. split.
    + intros (raw' & Hin & Heq).
      destruct (normalize_ad_id raw') eqn:Hn; [done|].
      by injection Heq as -> <-.
    + intros (Hin & Hn & ->). exists raw. by rewrite Hn.
Qed.

Lemma result_dict_snoc (results : list outcome) o :
  result_dict (results ++ [o])
  = <[o.1.1 := (o.1.2, o.2)]> (result_dict results).
Proof.
  unfold result_dict. rewrite foldl_snoc. by destruct o as [[id c] e].
Qed.

(** X18. Looking an identifier up in [result_dict] gives the cost and
    error of the last result that carries it, and nothing when no result
    does. *)
Theorem result_dict_last (results : list outcome) (k : list N) :
  result_dict results !! k
  = (fun o : outcome => (o.1.2, o.2))
      <$> last (filter (fun o : outcome => o.1.1 = k) results).
Proof.
  induction results as [|o results IH] using rev_ind; [done|].
  rewrite result_dict_snoc, filter_app.
  destruct (decide (o.1.1 = k)) as [Hk|Hk].
  - rewrite filter_cons_True, filter_nil, last_snoc by done.
    rewrite Hk. by rewrite lookup_insert_eq.
  - rewrite filter_cons_False, filter_nil, app_nil_r by done.
    by rewrite lookup_insert_ne.
Qed.

Lemma result_dict_lookup_index (results : list outcome) (j : nat) o :
  results !! j = Some o ->
  (forall (j' : nat) o',
      (j < j')%nat -> results !! j' = Some o' -> o'.1.1 <> o.1.1) ->
  result_dict results !! o.1.1 = Some (o.1.2, o.2).
Proof.
  revert j. induction results as [|x results IH] using rev_ind; [done|].
  intros j Hj Hlater. rewrite result_dict_snoc.
  destruct (decide (j < length results)%nat) as [Hlt|Hge].
  - rewrite lookup_app_l in Hj by done.
    rewrite lookup_insert_ne.
    + apply (IH j Hj). intros j' o' Hjj' Ho'.
      apply (Hlater j' o' Hjj'). by apply lookup_app_l_Some.
    + apply (Hlater (length results) x Hlt).
      by rewrite list_lookup_middle.
  - apply lookup_lt_Some in Hj as Hjlt. rewrite length_app in Hjlt.
    cbn in Hjlt. assert (j = length results) as -> by lia.
    rewrite list_lookup_middle in Hj by done. injection Hj as ->.
    by rewrite lookup_insert_eq.
Qed.

Lemma tasks_lookup ad_ids zip_code (j : nat) n :
  (tasks ad_ids zip_code).*1 !! j = Some n
  <-> tasks ad_ids zip_code !! j = Some (n, zip_code).
Proof.
  unfold tasks. rewrite <- list_fmap_compose, !list_lookup_fmap.
  destruct (valid_ids ad_ids !! j) as [[raw n']|]; cbn; [|done].
  split; by intros [= ->].
Qed.

Lemma run_tasks_id net ad_ids zip_code (j : nat) o :
  run_tasks net (tasks ad_ids zip_code) !! j = Some o ->
  (tasks ad_ids zip_code).*1 !! j = Some o.1.1.
Proof.
  unfold run_tasks. rewrite list_lookup_imap, list_lookup_fmap.
  destruct (tasks ad_ids zip_code !! j) as [[ad_id zip]|]; cbn; [|done].
  intros [= <-]. by rewrite fetch_shipping_cost_id.
Qed.

(** What line 68 finds for a canonical identifier: the outcome of the
    last fetch of that identifier. *)
Lemma result_dict_last_fetch net ad_ids zip_code (j : nat) n :
  (tasks ad_ids zip_code).*1 !! j = Some n ->
  (forall j' : nat,
      (j < j')%nat -> (tasks ad_ids zip_code).*1 !! j' <> Some n) ->
  result_dict (run_tasks net (tasks ad_ids zip_code)) !! n
  = Some ((fetch_shipping_cost (net j) n zip_code).1.2,
          (fetch_shipping_cost (net j) n zip_code).2).
Proof.
  intros Hj Hlast. apply tasks_lookup in Hj.
  pose proof (run_tasks_lookup net _ _ _ _ Hj) as Hr.
  pose proof (result_dict_lookup_index _ _ _ Hr) as Hd.
  rewrite fetch_shipping_cost_id in Hd. apply Hd.
  intros j' o' Hjj' Ho' Heq. apply run_tasks_id in Ho'.
  rewrite Heq in Ho'. by apply (Hlast j' Hjj').
Qed.

(** X19. The default of line 68 is never used: for every token that
    normalised, [result_dict] holds an entry under its canonical
    identifier. *)
Theorem unknown_error_unreachable net (ad_ids zip_code raw n : list N) :
  (raw, n) ∈ valid_ids ad_ids ->
  is_Some (result_dict (run_tasks net (tasks ad_ids zip_code)) !! n).
Proof.
  intros Hv.
  assert (Hn : n ∈ (tasks ad_ids zip_code).*1).
  { unfold tasks. rewrite <- list_fmap_compose.
    apply list_elem_of_fmap. by exists (raw, n). }
  apply list_elem_of_lookup in Hn as [i Hi].
  pose proof (lookup_lt_Some _ _ _ Hi) as Hlen.
  assert (Hex : exists j : nat,
             (tasks ad_ids zip_code).*1 !! j = Some n
             /\ forall j' : nat,
                 (j < j')%nat -> (tasks ad_ids zip_code).*1 !! j' <> Some n).
  { clear Hv. revert i Hi Hlen.
    induction (tasks ad_ids zip_code).*1 as [|x l IH] using rev_ind;
      [done|].
    intros i Hi _. destruct (decide (x = n)) as [->|Hne].
    - exists (length l). split; [by rewrite list_lookup_middle|].
      intros j' Hj' Hl. apply lookup_lt_Some in Hl.
      rewrite length_app in Hl. cbn in Hl. lia.
    - assert (Hil : (i < length l)%nat).
      { apply lookup_lt_Some in Hi as Hlt. rewrite length_app in Hlt.
        cbn in Hlt. destruct (decide (i = length l)) as [->|]; [|lia].
        rewrite list_lookup_middle in Hi by done. congruence. }
      rewrite lookup_app_l in Hi by done.
      destruct (IH i Hi Hil) as (j & Hj & Hlast).
      exists j. split; [by apply lookup_app_l_Some|].
      intros j' Hjj' Hl.
      destruct (decide (j' < length l)%nat).
      + rewrite lookup_app_l in Hl by done. by apply (Hlast j').
      + apply lookup_lt_Some in Hl as Hlt. rewrite length_app in Hlt.
        cbn in Hlt. assert (j' = length l) as -> by lia.
        rewrite list_lookup_middle in Hl by done. congruence. }
  destruct Hex as (j & Hj & Hlast).
  rewrite (result_dict_last_fetch net _ _ _ _ Hj Hlast). by eexists.
Qed.

End CoordinatorMore.

(** ** What the lines of a batch report *)

Section Lines.
Context `{RT : PyRuntime}.

Lemma batch_result_lookup net finish ad_ids zip_code entries (p : nat) raw :
  batch_result net finish ad_ids zip_code = Some entries ->
  id_list ad_ids !! p = Some raw ->
  entries !! p
  = Some (classify (result_dict (run_tasks net (tasks ad_ids zip_code)))
            (raw, normalize_ad_id raw)).
Proof.
  rewrite batch_result_eq. intros [= <-] Hp.
  unfold normalized_ids. by rewrite !list_lookup_fmap, Hp.
Qed.

Lemma classify_last_fetch net ad_ids zip_code (j : nat) raw n :
  normalize_ad_id raw = Some n ->
  (tasks ad_ids zip_code).*1 !! j = Some n ->
  (forall j' : nat,
      (j < j')%nat -> (tasks ad_ids zip_code).*1 !! j' <> Some n) ->
  classify (result_dict (run_tasks net (tasks ad_ids zip_code)))
    (raw, Some n)
  = match fetch_shipping_cost (net j) n zip_code with
    | (_, Some c, _) => Quoted raw n c
    | (_, None, error) => Failed raw n error
    end.
Proof.
  intros Hn Hj Hlast.
  destruct (normalize_ad_id_truthy _ _ Hn) as (c & n' & ->).
  unfold classify. cbn [truthy].
  rewrite (result_dict_last_fetch net _ _ _ _ Hj Hlast). cbn [default].
  by destruct (fetch_shipping_cost _ _ _) as [[id [cost|]] error].
Qed.

(** X20. The line of a token that normalised reports the outcome of the
    last fetch made for its canonical identifier: a cost if that fetch
    returned one, its error otherwise. When the canonical identifiers of
    the batch are pairwise distinct, that is the fetch made for the token
    itself. *)
Theorem line_reports_last_fetch net finish (ad_ids zip_code : list N)
    entries (p : nat) (raw n : list N) :
  batch_result net finish ad_ids zip_code = Some entries ->
  id_list ad_ids !! p = Some raw ->
  normalize_ad_id raw = Some n ->
  (forall j : nat,
      (tasks ad_ids zip_code).*1 !! j = Some n ->
      (forall j' : nat,
          (j < j')%nat -> (tasks ad_ids zip_code).*1 !! j' <> Some n) ->
      entries !! p
      = Some (match fetch_shipping_cost (net j) n zip_code with
              | (_, Some c, _) => Quoted raw n c
              | (_, None, error) => Failed raw n error
              end))
  /\ (forall i : nat,
         NoDup (tasks ad_ids zip_code).*1 ->
         valid_ids ad_ids !! i = Some (raw, n) ->
         entries !! p
         = Some (match fetch_shipping_cost (net i) n zip_code with
                 | (_, Some c, _) => Quoted raw n c
                 | (_, None, error) => Failed raw n error
                 end)).
Proof.
  intros Hb Hp Hn.
  rewrite (batch_result_lookup _ _ _ _ _ _ _ Hb Hp), Hn. split.
  - intros j Hj Hlast. f_equal. by apply classify_last_fetch.
  - intros i Hnd Hi. f_equal. apply classify_last_fetch; [done| |].
    + unfold tasks. rewrite <- list_fmap_compose, list_lookup_fmap, Hi.
      done.
    + intros j' Hlt Hj'.
      assert (Hi' : (tasks ad_ids zip_code).*1 !! i = Some n).
      { unfold tasks. rewrite <- list_fmap_compose, list_lookup_fmap, Hi.
        done. }
      pose proof (NoDup_lookup _ _ _ _ Hnd Hi' Hj'). lia.
Qed.

(** X21. The invalid-input markers of a batch stand exactly at the
    positions of the tokens that fail normalisation, and carry those
    tokens; what the network does has no part in it. *)
Theorem invalid_marker_positions net finish (ad_ids zip_code : list N)
    entries (p : nat) (raw : list N) :
  batch_result net finish ad_ids zip_code = Some entries ->
  entries !! p = Some (InvalidInput raw)
  <-> id_list ad_ids !! p = Some raw /\ normalize_ad_id raw = None.
Proof.
  intros Hb. split.
  - intros Hp.
    pose proof (batch_result_raw _ _ _ _ _ Hb) as Hraw.
    assert (Hid : id_list ad_ids !! p = Some raw).
    { rewrite <- Hraw, list_lookup_fmap, Hp. done. }
    split; [done|].
    rewrite (batch_result_lookup _ _ _ _ _ _ _ Hb Hid) in Hp.
    destruct (normalize_ad_id raw) as [n|] eqn:Hn; [|done].
    destruct (normalize_ad_id_truthy _ _ Hn) as (c & n' & ->).
    unfold classify in Hp. cbn [truthy] in Hp.
    by destruct (default _ _) as [[cost|] error].
  - intros [Hp Hn].
    by rewrite (batch_result_lookup _ _ _ _ _ _ _ Hb Hp), Hn.
Qed.

Lemma count_calls_app p (a b : list gui_call) :
  count_calls p (a ++ b) = (count_calls p a + count_calls p b)%nat.
Proof. unfold count_calls. by rewrite filter_app, length_app. Qed.

Lemma count_render_insert e : count_calls is_insert (render e) = 1%nat.
Proof. by destruct e. Qed.

Lemma count_render_warning e :
  count_calls is_warning (render e)
  = match e with InvalidInput _ => 1%nat | _ => 0%nat end.
Proof. by destruct e. Qed.

Lemma count_render_error e :
  count_calls is_error (render e)
  = match e with Failed _ _ _ => 1%nat | _ => 0%nat end.
Proof. by destruct e. Qed.

(** X22. A batch writes one line per token, opens one warning dialog per
    token that fails normalisation, and at most one error dialog per
    token that normalised. *)
Theorem window_call_counts net finish (ad_ids zip_code : list N) calls :
  process_ad_ids net finish ad_ids zip_code = Some calls ->
  count_calls is_insert calls = length (id_list ad_ids)
  /\ count_calls is_warning calls = length (invalid_ids ad_ids)
  /\ (count_calls is_error calls <= length (valid_ids ad_ids))%nat.
Proof.
  unfold process_ad_ids. rewrite batch_result_eq. cbn. intros [= <-].
  rewrite valid_ids_omap, invalid_ids_omap. unfold normalized_ids.
  generalize (result_dict (run_tasks net (tasks ad_ids zip_code))).
  intros d. induction (id_list ad_ids) as [|raw l (IH1 & IH2 & IH3)];
    [done|].
  cbn [fmap list_fmap concat omap list_omap length].
  rewrite !count_calls_app, count_render_insert, count_render_warning,
    count_render_error, IH1, IH2.
  destruct (normalize_ad_id raw) as [n|] eqn:Hn.
  - destruct (normalize_ad_id_truthy _ _ Hn) as (c & n' & ->).
    pose proof (entry_norm_classify d raw c n') as Hnorm.
    cbn [fmap option_fmap option_map length].
    destruct (classify d (raw, Some (c :: n'))); [| |done];
      split_and!; lia.
  - cbn [classify length fmap option_fmap option_map]. split_and!; lia.
Qed.

End Lines.

(** ** Stripping the whole text *)

Lemma lstrip_app_blank ws s :
  Forall (fun c => is_space c = true) ws -> lstrip (ws ++ s) = lstrip s.
Proof.
  induction 1 as [|c ws Hc _ IH]; [done|]. cbn [app lstrip]. by rewrite Hc.
Qed.

Lemma lstrip_app s z : lstrip s <> [] -> lstrip (s ++ z) = lstrip s ++ z.
Proof.
  induction s as [|c s IH]; [done|]. cbn [app lstrip].
  destruct (is_space c); [exact IH|done].
Qed.

Lemma strip_app_blank_l ws s :
  Forall (fun c => is_space c = true) ws -> strip (ws ++ s) = strip s.
Proof. intros H. unfold strip. by rewrite lstrip_app_blank. Qed.

Lemma strip_app_blank_r s ws :
  Forall (fun c => is_space c = true) ws -> strip (s ++ ws) = strip s.
Proof.
  intros H. unfold strip.
  destruct (decide (lstrip s = [])) as [Hs|Hs].
  - apply lstrip_nil in Hs as Hall.
    rewrite Hs, (proj2 (lstrip_nil (s ++ ws))); [done|].
    by apply Forall_app.
  - rewrite lstrip_app, reverse_app by done.
    by rewrite lstrip_app_blank by by apply Forall_reverse.
Qed.

Lemma strip_blank s : Forall (fun c => is_space c = true) s -> strip s = [].
Proof. intros H. by apply strip_nil. Qed.

(** Splitting a concatenation: the last piece of the first text and the
    first piece of the second are one piece. *)
Lemma re_split_concat a :
  exists pre x,
    re_split a = pre ++ [x]
    /\ forall b, exists y rest,
        re_split b = y :: rest
        /\ re_split (a ++ b) = pre ++ (x ++ y) :: rest.
Proof.
  induction a as [|d a (pre & x & Ha & Hb)].
  - exists [], []. split; [done|]. intros b.
    destruct (re_split b) as [|y rest] eqn:Hs.
    { by destruct (re_split_not_nil b). }
    by exists y, rest.
  - cbn [app re_split]. destruct (is_sep d).
    + exists ([] :: pre), x. split; [by rewrite Ha|].
      intros b. destruct (Hb b) as (y & rest & Hy & ->). by exists y, rest.
    + rewrite Ha. destruct pre as [|p ps].
      * exists [], (d :: x). split; [done|].
        intros b. destruct (Hb b) as (y & rest & Hy & ->). by exists y, rest.
      * exists ((d :: p) :: ps), x. split; [done|].
        intros b. destruct (Hb b) as (y & rest & Hy & ->). by exists y, rest.
Qed.

Lemma tokens_blank ws :
  Forall (fun c => is_space c = true) ws -> tokens ws = [].
Proof.
  intros H. apply elem_of_nil_inv. intros t Ht.
  apply elem_of_tokens in Ht as (Hne & piece & Hp & ->).
  apply Hne, strip_blank, Forall_forall. intros c Hc.
  destruct (re_split_pieces _ _ _ Hp Hc) as [Hin _].
  by eapply Forall_forall in H.
Qed.

Lemma filter_truthy_blank (pieces : list (list N)) :
  Forall (Forall (fun c => is_space c = true)) pieces ->
  filter (fun t => Is_true (truthy t)) (strip <$> pieces) = [].
Proof.
  intros H. apply filter_none. intros t Ht.
  apply list_elem_of_fmap in Ht as (piece & -> & Hp).
  eapply Forall_forall in H; [|exact Hp].
  rewrite (strip_blank _ H). cbn. tauto.
Qed.

Lemma re_split_blank ws :
  Forall (fun c => is_space c = true) ws ->
  Forall (Forall (fun c => is_space c = true)) (re_split ws).
Proof.
  intros H. apply Forall_forall. intros piece Hp.
  apply Forall_forall. intros c Hc.
  destruct (re_split_pieces _ _ _ Hp Hc) as [Hin _].
  by eapply Forall_forall in H.
Qed.

Lemma tokens_app_blank_r s ws :
  Forall (fun c => is_space c = true) ws -> tokens (s ++ ws) = tokens s.
Proof.
  intros H. unfold tokens.
  destruct (re_split_concat s) as (pre & x & Hs & Hb).
  destruct (Hb ws) as (y & rest & Hw & ->). rewrite Hs.
  pose proof (re_split_blank ws H) as Hall. rewrite Hw in Hall.
  apply Forall_cons_1 in Hall as [Hy Hrest].
  rewrite !fmap_app, !filter_app. f_equal.
  cbn [fmap list_fmap]. rewrite strip_app_blank_r by done.
  rewrite (filter_cons _ (strip x) (strip <$> rest)).
  rewrite (filter_truthy_blank rest) by done.
  by rewrite (filter_cons _ (strip x) []).
Qed.

Lemma tokens_app_blank_l ws s :
  Forall (fun c => is_space c = true) ws -> tokens (ws ++ s) = tokens s.
Proof.
  intros H. unfold tokens.
  destruct (re_split_concat ws) as (pre & x & Hs & Hb).
  destruct (Hb s) as (y & rest & Hw & ->). rewrite Hw.
  pose proof (re_split_blank ws H) as Hall. rewrite Hs in Hall.
  apply Forall_app in Hall as [Hpre Hx].
  apply Forall_cons_1 in Hx as [Hx _].
  rewrite fmap_app, filter_app, (filter_truthy_blank pre) by done.
  cbn [app fmap list_fmap]. by rewrite strip_app_blank_l by done.
Qed.

(** Stripping the whole text first does not change its tokens. *)
Lemma tokens_strip s : tokens (strip s) = tokens s.
Proof.
  destruct (strip_split s) as (l & r & Hs & Hl & Hr).
  rewrite Hs at 2.
  by rewrite tokens_app_blank_l, tokens_app_blank_r.
Qed.

(** ** The button callback *)

Section CallbackFacts.
Context `{RT : PyRuntime}.

Lemma normalize_zip_code_strip s :
  normalize_zip_code (strip s) = normalize_zip_code s.
Proof.
  rewrite !normalize_zip_code_cleaned.
  by rewrite re_sub_not_strip by apply ascii_digit_not_space.
Qed.

Lemma normalize_zip_code_truthy s z :
  normalize_zip_code s = Some z -> truthy z = true.
Proof.
  rewrite normalize_zip_code_cleaned.
  destruct (Nat.eqb_spec (length (re_sub_not ascii_digit s)) 8)
    as [Hlen|]; [|done].
  intros [= <-]. by destruct (re_sub_not ascii_digit s).
Qed.

(** What [calculate_shipping] does, by case. *)
Lemma calculate_shipping_cases ad_id_entry zip_entry :
  calculate_shipping ad_id_entry zip_entry =
    match normalize_zip_code zip_entry with
    | None =>
        [Dialog (ShowError (u "Error")
                   (Some (u "Invalid ZIP code. Must be 8 digits (e.g., 01001000).")))]
    | Some z =>
        match strip ad_id_entry with
        | [] =>
            [Dialog (ShowError (u "Error")
                       (Some (u "Please enter at least one ad ID.")))]
        | _ :: _ =>
            [DeleteAll;
             InsertResult notice;
             InsertResult (u "Fetching shipping costs..." ++ [LF]);
             UpdateWindow;
             After 0 (strip ad_id_entry) z]
        end
    end.
Proof.
  unfold calculate_shipping. rewrite normalize_zip_code_strip.
  destruct (normalize_zip_code zip_entry) as [z|] eqn:Hz; [|done].
  rewrite (normalize_zip_code_truthy _ _ Hz). cbn [negb].
  by destruct (strip ad_id_entry).
Qed.

(** X23. The callback schedules a batch exactly when the postal code
    normalises and the ad-id text is not blank; the batch is scheduled
    at once, for the stripped text and the canonical postal code, which
    has 8 digits. *)
Theorem calculate_shipping_schedules (ad_id_entry zip_entry : list N)
    (ms : Z) (ad_ids z : list N) :
  (After ms ad_ids z ∈ calculate_shipping ad_id_entry zip_entry
   <-> ms = 0%Z /\ ad_ids = strip ad_id_entry /\ ad_ids <> []
       /\ normalize_zip_code zip_entry = Some z)
  /\ (After ms ad_ids z ∈ calculate_shipping ad_id_entry zip_entry ->
      length z = 8%nat /\ Forall (fun c => ascii_digit c = true) z).
Proof.
  assert (Hiff : After ms ad_ids z ∈ calculate_shipping ad_id_entry zip_entry
                 <-> ms = 0%Z /\ ad_ids = strip ad_id_entry /\ ad_ids <> []
                     /\ normalize_zip_code zip_entry = Some z).
  { rewrite calculate_shipping_cases.
    destruct (normalize_zip_code zip_entry) as [z0|] eqn:Hz.
    - destruct (strip ad_id_entry) as [|c t] eqn:Hs.
      + rewrite list_elem_of_singleton. split; [done|]. by intros (_ & -> & ? & _).
      + rewrite !elem_of_cons, elem_of_nil. split.
        * intros [?|[?|[?|[?|[[= -> -> ->]|[]]]]]]; done.
        * intros (-> & -> & _ & [= ->]). auto 10.
    - rewrite list_elem_of_singleton. split; [done|]. by intros (_ & _ & _ & ?). }
  split; [exact Hiff|].
  intros (_ & _ & _ & Hz)%Hiff.
  rewrite normalize_zip_code_cleaned in Hz.
  destruct (Nat.eqb_spec (length (re_sub_not ascii_digit zip_entry)) 8)
    as [Hlen|]; [|done].
  injection Hz as <-. split; [done|apply re_sub_not_class].
Qed.

(** X24. The postal code is checked first: when it does not normalise
    the callback opens the invalid-ZIP dialog and does nothing else,
    whatever the ad-id text; when it normalises and the ad-id text is
    blank, it opens the enter-an-ad-id dialog and does nothing else. In
    neither case is the results box touched or a batch scheduled. *)
Theorem calculate_shipping_rejects (ad_id_entry zip_entry : list N) :
  (normalize_zip_code zip_entry = None ->
   calculate_shipping ad_id_entry zip_entry
   = [Dialog (ShowError (u "Error")
                (Some (u "Invalid ZIP code. Must be 8 digits (e.g., 01001000).")))])
  /\ (normalize_zip_code zip_entry <> None ->
      Forall (fun c => is_space c = true) ad_id_entry ->
      calculate_shipping ad_id_entry zip_entry
      = [Dialog (ShowError (u "Error")
                   (Some (u "Please enter at least one ad ID.")))]).
Proof.
  rewrite calculate_shipping_cases. split.
  - by intros ->.
  - intros Hz Hblank. destruct (normalize_zip_code zip_entry); [|done].
    by rewrite (strip_blank _ Hblank).
Qed.

(** X25. When both inputs pass, the callback clears the results box,
    writes the notice and the progress line, refreshes the window and
    schedules one batch; run, that batch returns and writes one line for
    each distinct token of the text as it was typed. *)
Theorem calculate_shipping_runs net finish (ad_id_entry zip_entry z : list N) :
  normalize_zip_code zip_entry = Some z ->
  strip ad_id_entry <> [] ->
  calculate_shipping ad_id_entry zip_entry
  = [DeleteAll;
     InsertResult notice;
     InsertResult (u "Fetching shipping costs..." ++ [LF]);
     UpdateWindow;
     After 0 (strip ad_id_entry) z]
  /\ id_list (strip ad_id_entry) = id_list ad_id_entry
  /\ exists calls,
      run_async net finish (strip ad_id_entry) z = Some calls
      /\ count_calls is_insert calls = length (id_list ad_id_entry).
Proof.
  intros Hz Hne. split_and!.
  - rewrite calculate_shipping_cases, Hz.
    by destruct (strip ad_id_entry).
  - unfold id_list. by rewrite tokens_strip.
  - unfold run_async, process_ad_ids. rewrite batch_result_eq.
    cbn [mbind option_bind]. eexists. split; [reflexivity|].
    assert (Hid : id_list (strip ad_id_entry) = id_list ad_id_entry)
      by (unfold id_list; by rewrite tokens_strip).
    unfold normalized_ids. rewrite Hid. clear Hid.
    generalize (result_dict
                  (run_tasks net (tasks (strip ad_id_entry) z))).
    intros d. induction (id_list ad_id_entry) as [|raw l IH]; [done|].
    cbn [fmap list_fmap concat length].
    by rewrite count_calls_app, count_render_insert, IH.
Qed.

(** X26. A text that passes the blank test of line 90 may still hold no
    token (a lone comma, say): the batch is scheduled, and when run it
    requests nothing and writes nothing, so the progress line is the
    last thing the window shows. *)
Theorem calculate_shipping_no_token net finish
    (ad_id_entry zip_entry z : list N) :
  normalize_zip_code zip_entry = Some z ->
  strip ad_id_entry <> [] ->
  Forall (fun c => is_sep c = true \/ is_space c = true) ad_id_entry ->
  After 0 (strip ad_id_entry) z ∈ calculate_shipping ad_id_entry zip_entry
  /\ requests (strip ad_id_entry) z = []
  /\ run_async net finish (strip ad_id_entry) z = Some [].
Proof.
  intros Hz Hne Hall.
  assert (Hid : id_list (strip ad_id_entry) = []).
  { unfold id_list. rewrite tokens_strip.
    by apply id_list_nil_iff in Hall. }
  split_and!.
  - rewrite calculate_shipping_cases, Hz.
    destruct (strip ad_id_entry); [done|]. do 4 right. by left.
  - unfold requests, tasks, valid_ids, normalized_ids. by rewrite Hid.
  - unfold run_async, process_ad_ids, batch_result. by rewrite Hid.
Qed.

End CallbackFacts.

(** ** More concrete runs *)

Section MoreRuns.
#[local] Existing Instance whole_runtime.

Lemma normalize_ad_id_shape_witness :
  exists c ds,
    u "MLB123" = u "MLB" ++ c :: ds
    /\ Forall (fun c => ascii_digit c = true) (c :: ds).
Proof.
  apply (normalize_ad_id_shape (u " mlb-123 ") (u "MLB123")).
  vm_compute. reflexivity.
Defined.

Lemma normalize_ad_id_fixed_points_witness :
  normalize_ad_id (u "MLB42") = Some (u "MLB42").
Proof.
  apply (proj2 (normalize_ad_id_fixed_points (u "MLB42"))).
  exists 52, [50]. split; [reflexivity|]. by repeat constructor.
Defined.

Lemma normalize_ad_id_noise_witness :
  normalize_ad_id (u "MLB-123 456") = normalize_ad_id (u "xMLB123456x").
Proof.
  apply (normalize_ad_id_noise (u "MLB-123 456") (u "xMLB123456x")).
  vm_compute. reflexivity.
Defined.

Lemma normalize_ad_id_iff_witness :
  normalize_ad_id (u "n. 123") = Some (u "MLB123").
Proof.
  apply (proj2 (normalize_ad_id_iff (u "n. 123") (u "MLB123"))).
  exists 49, [50; 51]. split_and!; [by repeat constructor|reflexivity|].
  left. vm_compute. reflexivity.
Defined.

Lemma normalize_ad_id_no_digit_witness : normalize_ad_id (u " MLB ") = None.
Proof.
  apply (normalize_ad_id_no_digit (u " MLB ")).
  by repeat constructor.
Defined.

Lemma normalize_zip_code_iff_witness :
  u "01001000" = re_sub_not ascii_digit (u "CEP 01.001-000")
  /\ length (u "01001000") = 8%nat.
Proof.
  apply (proj1 (normalize_zip_code_iff (u "CEP 01.001-000") (u "01001000"))).
  vm_compute. reflexivity.
Defined.

Lemma normalize_zip_code_idempotent_witness :
  normalize_zip_code (u "01001000") = Some (u "01001000").
Proof.
  apply (normalize_zip_code_idempotent (u "01.001-000") (u "01001000")).
  vm_compute. reflexivity.
Defined.

Lemma fetch_success_iff_witness :
  fetch_shipping_cost
    (fun _ => Ok (JObj {[ u "options" :=
       JArr [JNull; JNull; JObj {[ u "list_cost" := JStr (u "19") ]}] ]}))
    (u "MLB1") sample_zip
  = (u "MLB1", Some (19%Z : pyfloat), None).
Proof.
  apply (proj2 (fetch_success_iff
                  (fun _ => Ok (JObj {[ u "options" :=
                     JArr [JNull; JNull;
                           JObj {[ u "list_cost" := JStr (u "19") ]}] ]}))
                  (u "MLB1") sample_zip _)).
  exists {[ u "options" :=
            JArr [JNull; JNull; JObj {[ u "list_cost" := JStr (u "19") ]}] ]},
    [JNull; JNull; JObj {[ u "list_cost" := JStr (u "19") ]}],
    {[ u "list_cost" := JStr (u "19") ]}, (JStr (u "19")).
  split_and!; vm_compute; reflexivity.
Defined.

Lemma fetch_error_category_witness :
  exists msg,
    fetch_shipping_cost (fun _ => Raise (Exn InvalidURL 0))
      (u "MLB1") sample_zip
    = (u "MLB1", None, Some msg)
    /\ msg = u "Client error: " ++ exn_str (Exn InvalidURL 0)
               ++ u ". Check your connection or contact the developer.".
Proof.
  destruct (fetch_error_category (fun _ => Raise (Exn InvalidURL 0))
              (u "MLB1") sample_zip (Exn InvalidURL 0))
    as (msg & Hf & _ & Hc & _); [reflexivity|].
  exists msg. split; [exact Hf|]. apply Hc; vm_compute; reflexivity.
Defined.

Lemma fetch_unreadable_cost_witness :
  fetch_shipping_cost
    (fun _ => Ok (JObj {[ u "options" :=
       JArr [JNull; JNull; JObj {[ u "list_cost" := JStr (u "gratis") ]}] ]}))
    (u "MLB1") sample_zip
  = (u "MLB1", None,
     Some (u "Invalid response: " ++ exn_str (Exn ValueError 0)
             ++ u ". The API returned unexpected data. Try again or contact the developer.")).
Proof.
  destruct (fetch_unreadable_cost
              (fun _ => Ok (JObj {[ u "options" :=
                 JArr [JNull; JNull;
                       JObj {[ u "list_cost" := JStr (u "gratis") ]}] ]}))
              (u "MLB1") sample_zip
              {[ u "options" :=
                 JArr [JNull; JNull;
                       JObj {[ u "list_cost" := JStr (u "gratis") ]}] ]}
              [JNull; JNull; JObj {[ u "list_cost" := JStr (u "gratis") ]}]
              {[ u "list_cost" := JStr (u "gratis") ]})
    as [_ H]; [reflexivity|vm_compute; reflexivity|reflexivity|].
  apply (H (u "gratis")); vm_compute; reflexivity.
Defined.

Lemma fetch_non_object_body_witness :
  fetch_shipping_cost (fun _ => Ok (JArr [JStr (u "none")]))
    (u "MLB1") sample_zip
  = (u "MLB1", None, Some (u "No shipping options available")).
Proof.
  apply (fetch_non_object_body (fun _ => Ok (JArr [JStr (u "none")]))
           (u "MLB1") sample_zip (JArr [JStr (u "none")]));
    [reflexivity|done].
Defined.

Lemma fetch_third_option_only_witness :
  fetch_shipping_cost
    (fun _ => Ok (JObj {[ u "options" :=
       JArr [JInt 1; JInt 2; JObj {[ u "list_cost" := JInt 7 ]}] ]}))
    (u "MLB1") sample_zip
  = fetch_shipping_cost
      (fun _ => Ok (JObj {[ u "options" :=
         JArr [JNull; JNull; JObj {[ u "list_cost" := JInt 7 ]}; JNull] ]}))
      (u "MLB1") sample_zip.
Proof.
  apply (fetch_third_option_only _ _ (u "MLB1") sample_zip
           {[ u "options" :=
              JArr [JInt 1; JInt 2; JObj {[ u "list_cost" := JInt 7 ]}] ]}
           {[ u "options" :=
              JArr [JNull; JNull; JObj {[ u "list_cost" := JInt 7 ]};
                    JNull] ]}
           [JInt 1; JInt 2; JObj {[ u "list_cost" := JInt 7 ]}]
           [JNull; JNull; JObj {[ u "list_cost" := JInt 7 ]}; JNull]);
    try reflexivity; try (vm_compute; reflexivity); simpl; lia.
Defined.

Lemma id_list_tokens_clean_witness :
  u "MLB 1" <> []
  /\ Forall (fun c => is_sep c = false) (u "MLB 1")
  /\ (exists c, head (u "MLB 1") = Some c /\ is_space c = false)
  /\ (exists c, last (u "MLB 1") = Some c /\ is_space c = false).
Proof.
  apply (id_list_tokens_clean (u " MLB 1 ,, 2") (u "MLB 1")).
  apply (bool_decide_unpack _). vm_compute. exact I.
Defined.

Lemma blank_batch_witness :
  requests (u " , ,") sample_zip = []
  /\ process_ad_ids net404 (fun i => i) (u " , ,") sample_zip = Some [].
Proof.
  apply (proj2 (blank_batch net404 (fun i => i) (u " , ,") sample_zip)).
  vm_compute. reflexivity.
Defined.

Lemma id_list_app_witness :
  id_list (u "MLB1,MLB2" ++ 10 :: u "MLB2,MLB3")
  = id_list (u "MLB1,MLB2")
      ++ filter (fun t => t ∉ id_list (u "MLB1,MLB2")) (id_list (u "MLB2,MLB3")).
Proof.
  apply (id_list_app (u "MLB1,MLB2") (u "MLB2,MLB3") 10). reflexivity.
Defined.

Lemma batch_ignores_repeats_witness :
  id_list (u "MLB1,MLB2" ++ 44 :: u "MLB2") = id_list (u "MLB1,MLB2")
  /\ requests (u "MLB1,MLB2" ++ 44 :: u "MLB2") sample_zip
     = requests (u "MLB1,MLB2") sample_zip
  /\ process_ad_ids net404 (fun i => i) (u "MLB1,MLB2" ++ 44 :: u "MLB2")
       sample_zip
     = process_ad_ids net404 (fun i => i) (u "MLB1,MLB2") sample_zip.
Proof.
  apply (batch_ignores_repeats net404 (fun i => i) (u "MLB1,MLB2") (u "MLB2")
           44 sample_zip); [reflexivity|].
  intros t Ht. apply (bool_decide_unpack _) .
  replace (tokens (u "MLB2")) with [u "MLB2"] in Ht
    by (vm_compute; reflexivity).
  apply list_elem_of_singleton in Ht as ->. vm_compute. exact I.
Defined.

Lemma unknown_error_unreachable_witness :
  is_Some (result_dict (run_tasks net404 (tasks (u "MLB1,1") sample_zip))
             !! u "MLB1").
Proof.
  apply (unknown_error_unreachable net404 (u "MLB1,1") sample_zip
           (u "1") (u "MLB1")).
  apply (bool_decide_unpack _). vm_compute. exact I.
Defined.

(** Two tokens with one canonical identifier: the first line reports
    the second fetch. *)
Lemma line_reports_last_fetch_witness :
  shared_id_entries !! 0%nat
  = Some (match fetch_shipping_cost (net404_then_500 1%nat) (u "MLB1")
                  sample_zip with
          | (_, Some c, _) => Quoted (u "MLB1") (u "MLB1") c
          | (_, None, error) => Failed (u "MLB1") (u "MLB1") error
          end).
Proof.
  destruct (line_reports_last_fetch net404_then_500 (fun i => i)
              (u "MLB1,1") sample_zip shared_id_entries 0%nat
              (u "MLB1") (u "MLB1"))
    as [H _]; [vm_compute; reflexivity|vm_compute; reflexivity|
               vm_compute; reflexivity|].
  apply (H 1%nat); [vm_compute; reflexivity|].
  intros j' Hlt Hj'. apply lookup_lt_Some in Hj'.
  vm_compute in Hj'. lia.
Defined.

Lemma invalid_marker_positions_witness :
  id_list (u "MLB1,BLM1") !! 1%nat = Some (u "BLM1")
  /\ normalize_ad_id (u "BLM1") = None.
Proof.
  apply (proj1 (invalid_marker_positions net404 (fun i => i) (u "MLB1,BLM1")
                  sample_zip
                  [Failed (u "MLB1") (u "MLB1")
                     (Some (u "Item not found (404). Verify the ad ID and try again."));
                   InvalidInput (u "BLM1")]
                  1%nat (u "BLM1") ltac:(vm_compute; reflexivity))).
  reflexivity.
Defined.

Lemma window_call_counts_witness :
  count_calls is_insert three_token_calls
  = length (id_list (u "MLB1,BLM1,MLB2"))
  /\ count_calls is_warning three_token_calls
     = length (invalid_ids (u "MLB1,BLM1,MLB2"))
  /\ (count_calls is_error three_token_calls
      <= length (valid_ids (u "MLB1,BLM1,MLB2")))%nat.
Proof.
  apply (window_call_counts net404 (fun i => i) (u "MLB1,BLM1,MLB2")
           sample_zip three_token_calls).
  vm_compute. reflexivity.
Defined.

Lemma calculate_shipping_schedules_witness :
  After 0 (u "MLB1") (u "01001000")
  ∈ calculate_shipping (u " MLB1 ") (u "01.001-000").
Proof.
  apply (proj1 (calculate_shipping_schedules (u " MLB1 ") (u "01.001-000")
                  0 (u "MLB1") (u "01001000"))).
  split_and!; [reflexivity|vm_compute; reflexivity|done|
               vm_compute; reflexivity].
Defined.

Lemma calculate_shipping_rejects_witness :
  calculate_shipping (u "MLB1") (u "0100100")
  = [Dialog (ShowError (u "Error")
               (Some (u "Invalid ZIP code. Must be 8 digits (e.g., 01001000).")))].
Proof.
  apply (proj1 (calculate_shipping_rejects (u "MLB1") (u "0100100"))).
  vm_compute. reflexivity.
Defined.

Lemma calculate_shipping_runs_witness :
  id_list (strip (u " MLB1, 2 ")) = id_list (u " MLB1, 2 ").
Proof.
  apply (calculate_shipping_runs net404 (fun i => i) (u " MLB1, 2 ")
           (u "01.001-000") (u "01001000")).
  - vm_compute. reflexivity.
  - vm_compute. discriminate.
Defined.

Lemma calculate_shipping_no_token_witness :
  After 0 (u ",") (u "01001000")
  ∈ calculate_shipping (u " , ") (u "01001-000")
  /\ requests (strip (u " , ")) (u "01001000") = []
  /\ run_async net404 (fun i => i) (strip (u " , ")) (u "01001000")
     = Some [].
Proof.
  apply (calculate_shipping_no_token net404 (fun i => i) (u " , ")
           (u "01001-000") (u "01001000")).
  - vm_compute. reflexivity.
  - vm_compute. discriminate.
  - apply (bool_decide_unpack _). vm_compute. exact I.
Defined.

End MoreRuns.
